(** * scrapers-ca: the consistency-checking engine of [tasks.py]

    A shallow embedding of the naming rules ([slug], [type_id],
    [province_or_territory_abbreviation], [get_definition]), of the module
    metadata extractor ([module_name_to_metadata]) and of the auditor
    ([tidy]), followed by the properties of the specification.

    Python strings are sequences of Unicode code points, so a [str] is a
    list of code points; dictionaries are finite maps; a function that can
    raise returns a [result]; module-level dictionaries, the files on disk
    and the printed lines are fields of an explicit [world] that is threaded
    through the calls. *)

From Stdlib Require Import String Ascii NArith List.
From stdpp Require Import gmap.
Import ListNotations.

Local Open Scope N_scope.

(** ** Python values *)

Module Py.

(** A [str] is the list of its code points. *)
Abbreviation str := (list N).

(** Decoding of the UTF-8 bytes of a literal of this file into code
    points, so that literals are written as they are in the source. *)
Fixpoint utf8_decode (bs : list N) : str :=
  match bs with
  | [] => []
  | b :: r =>
    if b <? 0x80 then b :: utf8_decode r
    else if b <? 0xE0 then
      match r with
      | b1 :: r1 => ((b - 0xC0) * 64 + (b1 - 0x80)) :: utf8_decode r1
      | _ => [b]
      end
    else if b <? 0xF0 then
      match r with
      | b1 :: b2 :: r2 =>
        ((b - 0xE0) * 4096 + (b1 - 0x80) * 64 + (b2 - 0x80)) :: utf8_decode r2
      | _ => b :: r
      end
    else
      match r with
      | b1 :: b2 :: b3 :: r3 =>
        ((b - 0xF0) * 262144 + (b1 - 0x80) * 4096 + (b2 - 0x80) * 64 + (b3 - 0x80))
          :: utf8_decode r3
      | _ => b :: r
      end
  end.

Definition py (s : string) : str :=
  utf8_decode (map N_of_ascii (list_ascii_of_string s)).
Arguments py s%_string.

Definition str_eqb (a b : str) : bool := bool_decide (a = b).

(** [x in t] for a tuple of strings [t]. *)
Definition str_in (x : str) (t : list str) : bool := existsb (str_eqb x) t.

(** [c in s] for a character [c]. *)
Definition char_in (c : N) (s : str) : bool := existsb (N.eqb c) s.

(** *** Exceptions and results *)

Inductive exn : Type :=
| KeyError
| IndexError
| TypeError
| AttributeError
| ValueError
| ModuleNotFoundError
| FileNotFoundError
| RequestException
| NotFoundError
| Exception (msg : str).

(** [KeyError] and [IndexError] are the two subclasses of [LookupError]. *)
Definition is_LookupError (e : exn) : bool :=
  match e with
  | KeyError | IndexError => true
  | _ => false
  end.

Inductive result (A : Type) : Type :=
| Ok (a : A)
| Raise (e : exn).
Arguments Ok {A} a.
Arguments Raise {A} e.

(** *** Methods of [str] *)

(** [str.lower], character by character.  The model is [str.lower] on
    U+0000..U+00FF and on the characters without case.  It leaves every
    code point above U+00FF as it is, which is not what [str.lower] does
    to a cased letter there: a statement that depends on the case of a
    character is made for U+0000..U+00FF only. *)
Definition lower_char (c : N) : N :=
  if (0x41 <=? c) && (c <=? 0x5A) then c + 0x20
  else if (0xC0 <=? c) && (c <=? 0xDE) && negb (c =? 0xD7) then c + 0x20
  else c.

Definition lower (s : str) : str := map lower_char s.

(** The title-case form of a character, which [str.capitalize] gives to
    the first character.  The model is the title case on U+0000..U+00FF
    and on the characters without case; it leaves every code point above
    U+00FF as it is. *)
Definition title_char (c : N) : str :=
  if (0x61 <=? c) && (c <=? 0x7A) then [c - 0x20]
  else if (0xE0 <=? c) && (c <=? 0xFE) && negb (c =? 0xF7) then [c - 0x20]
  else if c =? 0xDF then [0x53; 0x73]
  else if c =? 0xB5 then [0x39C]
  else if c =? 0xFF then [0x178]
  else [c].

(** [str.capitalize]: first character in title case, the rest in lower
    case. *)
Definition capitalize (s : str) : str :=
  match s with
  | [] => []
  | c :: r => title_char c ++ lower r
  end.

(** [str.translate] with a table from code points to a replacement
    string, or to [None] for a deletion. *)
Definition translate (table : list (N * option str)) (s : str) : str :=
  flat_map
    (fun c =>
       match find (fun e => fst e =? c) table with
       | Some (_, Some r) => r
       | Some (_, None) => []
       | None => [c]
       end) s.

Fixpoint startswith (s p : str) {struct p} : bool :=
  match p, s with
  | [], _ => true
  | a :: p', b :: s' => (a =? b) && startswith s' p'
  | _ :: _, [] => false
  end.

Definition endswith (s p : str) : bool := startswith (rev s) (rev p).

(** [s.find(sep)] followed by the cut: the text before the first
    occurrence of [sep] and the text after it. *)
Fixpoint partition (sep s : str) : option (str * str) :=
  if startswith s sep then Some ([], drop (length sep) s)
  else
    match s with
    | [] => None
    | c :: r =>
      match partition sep r with
      | Some (a, b) => Some (c :: a, b)
      | None => None
      end
    end.

(** [s.split(sep, 1)]: one or two parts. *)
Definition split1 (sep s : str) : list str :=
  match partition sep s with
  | Some (a, b) => [a; b]
  | None => [s]
  end.

(** [s.rsplit(sep, 1)] for a separator of one character. *)
Fixpoint rsplit1 (sep : N) (s : str) : list str :=
  match s with
  | [] => [[]]
  | c :: r =>
    match rsplit1 sep r with
    | [a; b] => [c :: a; b]
    | _ => if c =? sep then [[]; r] else [c :: r]
    end
  end.

(** [s.replace(old, new)], from left to right without overlap: [skip]
    counts the characters of a match that are still to be dropped.  An
    empty [old] matches before every character and at the end. *)
Fixpoint replace_from (old new : str) (skip : nat) (s : str) : str :=
  match s with
  | [] => []
  | c :: r =>
    match skip with
    | S k => replace_from old new k r
    | O =>
      if startswith s old then new ++ replace_from old new (Nat.pred (length old)) r
      else c :: replace_from old new O r
    end
  end.

Definition replace (old new s : str) : str :=
  match old with
  | [] => new ++ flat_map (fun c => c :: new) s
  | _ :: _ => replace_from old new O s
  end.

(** [format(s, "<60")]: left-justified in a field of the given width. *)
Definition ljust (width : nat) (s : str) : str :=
  s ++ repeat 0x20 (width - length s)%nat.

(** *** The [re] module, for the character classes of the source *)

(** [re.sub("[cls]", repl, s)]. *)
Definition re_sub_class (cls : str) (repl : str) (s : str) : str :=
  flat_map (fun c => if char_in c cls then repl else [c]) s.

(** [re.split("[cls]", s)]. *)
Fixpoint re_split_class (cls : str) (s : str) : list str :=
  match s with
  | [] => [[]]
  | c :: r =>
    if char_in c cls then [] :: re_split_class cls r
    else
      match re_split_class cls r with
      | w :: ws => (c :: w) :: ws
      | [] => [[c]]
      end
  end.

(** [re.match("[lo-hi]", s)] as a truth value. *)
Definition re_match_range (lo hi : N) (s : str) : bool :=
  match s with
  | c :: _ => (lo <=? c) && (c <=? hi)
  | [] => false
  end.

(** [s[0]]. *)
Definition first_char (s : str) : result str :=
  match s with
  | c :: _ => Ok [c]
  | [] => Raise IndexError
  end.

End Py.
Import Py.

(** ** The [unidecode] library *)

Module Unidecode.

(** Transliteration of one code point.  ASCII is returned as it is; the
    rows for U+0080..U+00FF, for the dashes U+2010..U+2015, for the
    quotation marks U+2018..U+201D and for the ellipsis U+2026 are those
    of the library's tables [x000] and [x020].  The other rows of the
    library are not modelled: [repl] gives the empty string there, which
    is not the library's row, and [has_row] tells the code points apart.
    A statement that depends on the value of a row is made for the code
    points of [has_row] only. *)
Definition repl (c : N) : str :=
  if c <? 0x80 then [c]
  else if c <? 0xA0 then []
  else if c <? 0xC0 then
    nth (N.to_nat (c - 0xA0))
      [py " "; py "!"; py "C/"; py "PS"; py "$?"; py "Y="; py "|"; py "SS";
       [0x22]; py "(c)"; py "a"; py "<<"; py "!"; []; py "(r)"; py "-";
       py "deg"; py "+-"; py "2"; py "3"; py "'"; py "u"; py "P"; py "*";
       py ","; py "1"; py "o"; py ">>"; py " 1/4"; py " 1/2"; py " 3/4"; py "?"] []
  else if c <? 0x100 then
    nth (N.to_nat (c - 0xC0))
      (map py ["A"; "A"; "A"; "A"; "A"; "A"; "AE"; "C";
               "E"; "E"; "E"; "E"; "I"; "I"; "I"; "I";
               "D"; "N"; "O"; "O"; "O"; "O"; "O"; "x";
               "O"; "U"; "U"; "U"; "U"; "Y"; "Th"; "ss";
               "a"; "a"; "a"; "a"; "a"; "a"; "ae"; "c";
               "e"; "e"; "e"; "e"; "i"; "i"; "i"; "i";
               "d"; "n"; "o"; "o"; "o"; "o"; "o"; "/";
               "o"; "u"; "u"; "u"; "u"; "y"; "th"; "y"]%string) []
  else if (0x2010 <=? c) && (c <=? 0x2013) then py "-"
  else if (0x2014 <=? c) && (c <=? 0x2015) then py "--"
  else if (c =? 0x2018) || (c =? 0x2019) || (c =? 0x201B) then py "'"
  else if c =? 0x201A then py ","
  else if (c =? 0x201C) || (c =? 0x201D) then [0x22]
  else if c =? 0x2026 then py "..."
  else [].

(** The code points whose row is modelled. *)
Definition has_row (c : N) : bool :=
  (c <? 0x100)
  || ((0x2010 <=? c) && (c <=? 0x2015))
  || ((0x2018 <=? c) && (c <=? 0x201D))
  || (c =? 0x2026).

Definition unidecode (s : str) : str := flat_map repl s.

End Unidecode.
Import Unidecode.

(** ** The [opencivicdata.divisions] library *)

#[local] Set Warnings "-register-all".

Module Division.

(** A [Division] object, with the attributes that [tasks.py] reads.
    [attrs] holds the other columns of the row of the CSV file
    ([sgc], [classification], [url]); [parent] is the enclosing
    division, [None] when the library found none. *)
Inductive t : Type := mk {
  id : str;
  name : str;
  _type : str;
  attrs : gmap str str;
  parent : option t
}.

(** [Division.get(division_id, from_csv=...)]: the division of that
    identifier among those of the file, the last row winning, and
    [KeyError] when there is none. *)
Definition get (rows : list t) (division_id : str) : result t :=
  match foldl (fun cache d => <[id d := d]> cache) (∅ : gmap str t) rows !! division_id with
  | Some d => Ok d
  | None => Raise KeyError
  end.

End Division.

(** ** [tasks.py] *)

(** [d[k]] on a dictionary. *)
Definition getitem {V : Type} (d : gmap str V) (k : str) : result V :=
  match d !! k with
  | Some v => Ok v
  | None => Raise KeyError
  end.

(** [not d] on a dictionary. *)
Definition dict_empty {V : Type} (d : gmap str V) : bool :=
  match map_to_list d with
  | [] => true
  | _ :: _ => false
  end.

(** [slug(name)]: slugifies a division name. *)
Definition slug (name : str) : str :=
  unidecode
    (translate
       [ (0x20, Some (py "_"));
         (0x27, Some (py "_"));
         (0x2D, Some (py "_"));
         (0x2014, Some (py "_"));
         (0x2013, Some (py "_"));
         (0x2E, None) ]
       (lower name)).

(** [type_id(id)]: an OCD identifier's type ID. *)
Definition type_id (id : str) : result str :=
  match rsplit1 0x3A id with
  | [_; b] => Ok b
  | _ => Raise IndexError
  end.

(** *** Objects of a jurisdiction module *)

(** The value of an attribute: [None] or a string. *)
Inductive value : Type :=
| VNone
| VStr (s : str).

(** [bool(v)]. *)
Definition truthy (v : value) : bool :=
  match v with
  | VStr (_ :: _) => true
  | _ => false
  end.

(** [str(v)], as [format] inserts it. *)
Definition to_str (v : value) : str :=
  match v with
  | VNone => py "None"
  | VStr s => s
  end.

(** [v != s] for a string [s]. *)
Definition differs (v : value) (s : str) : bool :=
  match v with
  | VNone => true
  | VStr x => negb (str_eqb x s)
  end.

(** An object of a module's [__dict__]: its [__name__], when it has one,
    and its other attributes. *)
Record pyobject : Type := PyObject {
  __name__ : option str;
  attributes : gmap str value
}.

(** [getattr(obj, attribute, default)]. *)
Definition getattr (obj : pyobject) (attribute : str) (default : value) : value :=
  match attributes obj !! attribute with
  | Some v => v
  | None => default
  end.

(** The dictionary that [module_name_to_metadata] returns. *)
Module Metadata.
Record t : Type := mk {
  class_name : str;
  division_id : str;
  division_name : value;
  name : value;
  url : value;
  classification : value;
  jurisdiction_id : str
}.
End Metadata.

(** The result of [urllib.parse.urlsplit]. *)
Record SplitResult : Type := {
  scheme : str;
  netloc : str;
  path : str;
  query : str;
  fragment : str
}.

(** The lines that [tidy] prints, by the statement that prints them. *)
Inductive Finding : Type :=
| Duplicate_division_id (module_name division_id : str)
| Duplicate_jurisdiction_id (module_name jurisdiction_id : str)
| Missing_member_style (module_name division_id : str)
| Missing_leader_style (module_name division_id : str)
| Check_url (module_name url : str)
| Expected_name (name expected : str)
| Expected_legislature (classification : str)
| Expected_module_name (module_name expected : str).

(** The text of a printed line. *)
Definition render (f : Finding) : str :=
  match f with
  | Duplicate_division_id m d => ljust 60 m ++ py " Duplicate division_id " ++ d
  | Duplicate_jurisdiction_id m j => ljust 60 m ++ py " Duplicate jurisdiction_id " ++ j
  | Missing_member_style m d => ljust 60 m ++ py " Missing member style of address: " ++ d
  | Missing_leader_style m d => ljust 60 m ++ py " Missing leader style of address: " ++ d
  | Check_url m u => ljust 60 m ++ py " Check: " ++ u
  | Expected_name n e => ljust 60 n ++ py " Expected " ++ e
  | Expected_legislature c => ljust 60 c ++ py " Expected legislature"
  | Expected_module_name m e => ljust 60 m ++ py " Expected " ++ e
  end.

(** *** The state of the process *)

(** What the functions of [tasks.py] read and write outside their
    arguments: the two module-level dictionaries, the files of the module
    directories (directory, then base name, to content) and the lines
    printed so far, oldest first, each as the [Finding] it reports. *)
Record world : Type := World {
  province_or_territory_abbreviation_memo : gmap str str;
  ocdid_to_type_name_map : gmap str str;
  files : gmap str (list (str * str));
  stdout : list Finding
}.

(** A computation that reads and writes the [world] and may raise; the
    [world] at the time of the exception is kept. *)
Definition M (A : Type) : Type := world -> result A * world.

Definition ret {A : Type} (a : A) : M A := fun w => (Ok a, w).

Definition bind {A B : Type} (c : M A) (k : A -> M B) : M B :=
  fun w =>
    match c w with
    | (Ok a, w') => k a w'
    | (Raise e, w') => (Raise e, w')
    end.

Definition raise {A : Type} (e : exn) : M A := fun w => (Raise e, w).

Definition lift {A : Type} (r : result A) : M A := fun w => (r, w).

Definition read {A : Type} (f : world -> A) : M A := fun w => (Ok (f w), w).

Notation "'let!' x ':=' c 'in' k" := (bind c (fun x => k))
  (at level 10, x pattern, c at level 100, k at level 200, only parsing).
Notation "c ';;' k" := (bind c (fun _ => k))
  (at level 100, k at level 200, right associativity, only parsing).

(** [for x in xs: body]. *)
Fixpoint for_each {A : Type} (xs : list A) (body : A -> M unit) : M unit :=
  match xs with
  | [] => ret tt
  | x :: rest => body x ;; for_each rest body
  end.

(** [province_or_territory_abbreviation_memo[k] = v]. *)
Definition memo_set (k v : str) : M unit :=
  fun w =>
    (Ok tt,
     World (<[k := v]> (province_or_territory_abbreviation_memo w))
           (ocdid_to_type_name_map w) (files w) (stdout w)).

(** [ocdid_to_type_name_map[k] = v]. *)
Definition type_name_set (k v : str) : M unit :=
  fun w =>
    (Ok tt,
     World (province_or_territory_abbreviation_memo w)
           (<[k := v]> (ocdid_to_type_name_map w)) (files w) (stdout w)).

(** [print(...)] of the line of a finding. *)
Definition print (line : Finding) : M unit :=
  fun w =>
    (Ok tt,
     World (province_or_territory_abbreviation_memo w)
           (ocdid_to_type_name_map w) (files w) (stdout w ++ [line])).

(** The expected configuration that [get_definition] returns. *)
Module Expected.
Record t : Type := mk {
  module_name : str;
  name : str;
  class_name : str;
  url : str;
  division_name : str
}.
End Expected.

Section Tasks.

(** The rows of [country-ca.csv], as [Division.all("ca", from_csv=...)]
    yields them. *)
Variable country_ca : list Division.t.

(** The texts of the header cells ([//table//th[@headers]/text()]) of the
    two tables of census type names, or the exception of the request. *)
Variable t1_4 t1_5 : result (list str).

(** [province_or_territory_abbreviation(code)] *)
Definition province_or_territory_abbreviation (code : str) : M str :=
  let! memo := read province_or_territory_abbreviation_memo in
  (if dict_empty memo then
     for_each country_ca (fun division =>
       if str_in (Division._type division) [py "province"; py "territory"] then
         let! v := lift (type_id (Division.id division)) in
         let! k := lift (getitem (Division.attrs division) (py "sgc")) in
         memo_set k v
       else ret tt)
   else ret tt) ;;
  let! memo := read province_or_territory_abbreviation_memo in
  let! t := lift (type_id code) in
  lift (getitem memo (take 2 t)).

(** The loop [for text in document.xpath(...)] that fills a dictionary
    of census type names: [code, name = text.split(sep, 1)] and
    [names[code] = name.split(" / ", 1)[0]]. *)
Fixpoint census_type_names (sep : str) (texts : list str) (names : gmap str str)
  : result (gmap str str) :=
  match texts with
  | [] => Ok names
  | text :: rest =>
    match split1 sep text with
    | [code; name] =>
      census_type_names sep rest (<[code := hd [] (split1 (py " / ") name)]> names)
    | _ => Raise ValueError
    end
  end.

(** The body of [if not ocdid_to_type_name_map:]. *)
Definition load_type_names : M unit :=
  let! texts := lift t1_4 in
  let! census_division_type_names := lift (census_type_names (py " – ") texts ∅) in
  let! texts := lift t1_5 in
  let! census_subdivision_type_names :=
    lift (census_type_names (0xA0 :: py "– ") texts ∅) in
  for_each country_ca (fun division =>
    if str_eqb (Division._type division) (py "cd") then
      let! c := lift (getitem (Division.attrs division) (py "classification")) in
      let! v := lift (getitem census_division_type_names c) in
      type_name_set (Division.id division) v
    else if str_eqb (Division._type division) (py "csd") then
      let! c := lift (getitem (Division.attrs division) (py "classification")) in
      let! v := lift (getitem census_subdivision_type_names c) in
      type_name_set (Division.id division) v
    else ret tt).

Definition vowels : list str :=
  [py "A"; py "À"; py "E"; py "É"; py "I"; py "Î"; py "O"; py "Ô"; py "U"].

(** The class name of [get_definition]. *)
Definition expected_class_name (division_name : str) (aggregation : bool) : str :=
  let class_name_parts :=
    re_split_class (py " -")
      (re_sub_class (py "—–") (py "-") (re_sub_class (py "'.") [] division_name)) in
  let class_name :=
    unidecode
      (concat (map (fun word => if re_match_range 0x41 0x5A word then word
                                else capitalize word) class_name_parts)) in
  if aggregation then class_name ++ py "Municipalities" else class_name.

(** [get_definition(division_id, aggregation=False)]: the expected
    configuration for a given division. *)
Definition get_definition (division_id : str) (aggregation : bool) : M Expected.t :=
  let! type_names := read ocdid_to_type_name_map in
  (if dict_empty type_names then load_type_names else ret tt) ;;
  let! division := lift (Division.get country_ca division_id) in
  let! ocd_type_id := lift (type_id (Division.id division)) in
  let dname := Division.name division in
  let! module_name_and_name :=
    if str_eqb (Division._type division) (py "country") then
      ret (py "ca", py "Parliament of Canada")
    else if str_in (Division._type division) [py "province"; py "territory"] then
      let pattern_result :=
        if aggregation then py "ca_" ++ ocd_type_id ++ py "_municipalities"
        else py "ca_" ++ ocd_type_id in
      ret (pattern_result,
           if aggregation then dname ++ py " Municipalities"
           else if str_in ocd_type_id [py "nl"; py "ns"] then dname ++ py " House of Assembly"
           else if str_eqb ocd_type_id (py "qc") then py "Assemblée nationale du Québec"
           else py "Legislative Assembly of " ++ dname)
    else if str_eqb (Division._type division) (py "cd") then
      let! abbreviation := province_or_territory_abbreviation (Division.id division) in
      let module_name := py "ca_" ++ abbreviation ++ py "_" ++ slug dname in
      let! type_names := read ocdid_to_type_name_map in
      let! name_infix := lift (getitem type_names (Division.id division)) in
      let name_infix :=
        if str_eqb name_infix (py "Regional municipality") then py "Regional"
        else name_infix in
      ret (module_name, dname ++ py " " ++ name_infix ++ py " Council")
    else if str_eqb (Division._type division) (py "csd") then
      let! abbreviation := province_or_territory_abbreviation (Division.id division) in
      let module_name := py "ca_" ++ abbreviation ++ py "_" ++ slug dname in
      if str_eqb (take 2 ocd_type_id) (py "24") then
        let! initial := lift (first_char dname) in
        if str_in initial vowels then ret (module_name, py "Conseil municipal d'" ++ dname)
        else ret (module_name, py "Conseil municipal de " ++ dname)
      else
        let! type_names := read ocdid_to_type_name_map in
        let! name_infix := lift (getitem type_names (Division.id division)) in
        let name_infix :=
          if str_in name_infix [py "Municipality"; py "Specialized municipality"]
          then py "Municipal"
          else if str_eqb name_infix (py "District municipality") then py "District"
          else if str_eqb name_infix (py "Regional municipality") then py "Regional"
          else name_infix in
        ret (module_name, dname ++ py " " ++ name_infix ++ py " Council")
    else if str_eqb (Division._type division) (py "arrondissement") then
      let! parent :=
        match Division.parent division with
        | Some p => ret p
        | None => raise AttributeError
        end in
      let! abbreviation := province_or_territory_abbreviation (Division.id parent) in
      let module_name :=
        py "ca_" ++ abbreviation ++ py "_" ++ slug (Division.name parent)
           ++ py "_" ++ slug dname in
      let! initial := lift (first_char dname) in
      if str_in initial vowels then
        ret (module_name, py "Conseil d'arrondissement d'" ++ dname)
      else if str_eqb (take 3 dname) (py "Le ") then
        ret (module_name, py "Conseil d'arrondissement du " ++ drop 3 dname)
      else
        ret (module_name, py "Conseil d'arrondissement de " ++ dname)
    else
      raise (Exception (Division.id division ++ py ": Unrecognized OCD type "
                          ++ Division._type division)) in
  let class_name := expected_class_name dname aggregation in
  let! url := lift (getitem (Division.attrs division) (py "url")) in
  ret (Expected.mk (fst module_name_and_name) (snd module_name_and_name)
                   class_name url dname).


(** What [importlib.import_module] finds for a module name: the values
    of the module's [__dict__], in order. *)
Variable modules : gmap str (list pyobject).

(** [urllib.parse.urlsplit]. *)
Variable urlsplit : str -> result SplitResult.

(** The rows of the three sheets of styles of address, by [gid], or the
    exception of the request. *)
Variable styles_of_address : nat -> result (list (gmap str str)).

(** [os.listdir(".")]. *)
Variable listdir_cwd : list str.

(** The loop of [module_name_to_metadata] over [module.__dict__.values()];
    falling out of the loop returns [None]. *)
Fixpoint first_with_division_id (objs : list pyobject) : result (option Metadata.t) :=
  match objs with
  | [] => Ok None
  | obj :: rest =>
    let division_id := getattr obj (py "division_id") VNone in
    if truthy division_id then
      match __name__ obj with
      | None => Raise AttributeError
      | Some class_name =>
        Ok (Some
              (Metadata.mk class_name
                 (to_str division_id)
                 (getattr obj (py "division_name") VNone)
                 (getattr obj (py "name") VNone)
                 (getattr obj (py "url") VNone)
                 (getattr obj (py "classification") VNone)
                 (replace (py "ocd-division") (py "ocd-jurisdiction") (to_str division_id)
                    ++ py "/"
                    ++ to_str (getattr obj (py "classification") (VStr (py "legislature"))))))
      end
    else first_with_division_id rest
  end.

(** [module_name_to_metadata(module_name)] *)
Definition module_name_to_metadata (module_name : str) : result (option Metadata.t) :=
  match modules !! module_name with
  | None => Raise ModuleNotFoundError
  | Some objs => first_with_division_id objs
  end.

(** *** Files *)

(** [os.listdir(directory)]. *)
Definition listdir (directory : str) : M (list str) :=
  let! fs := read files in
  match fs !! directory with
  | Some entries => ret (map fst entries)
  | None => raise FileNotFoundError
  end.

(** [os.path.isfile(os.path.join(directory, basename))]. *)
Definition isfile (fs : gmap str (list (str * str))) (directory basename : str) : bool :=
  match fs !! directory with
  | Some entries => existsb (fun e => str_eqb (fst e) basename) entries
  | None => false
  end.

(** Reading the whole of a file. *)
Definition read_file (directory basename : str) : M str :=
  let! fs := read files in
  match fs !! directory with
  | Some entries =>
    match find (fun e => str_eqb (fst e) basename) entries with
    | Some e => ret (snd e)
    | None => raise FileNotFoundError
    end
  | None => raise FileNotFoundError
  end.

(** Opening a file for writing and writing [content] to it. *)
Definition write_file (directory basename content : str) : M unit :=
  fun w =>
    match files w !! directory with
    | Some entries =>
      let entries' :=
        if existsb (fun e => str_eqb (fst e) basename) entries then
          map (fun e => if str_eqb (fst e) basename then (basename, content) else e) entries
        else entries ++ [(basename, content)] in
      (Ok tt,
       World (province_or_territory_abbreviation_memo w) (ocdid_to_type_name_map w)
             (<[directory := entries']> (files w)) (stdout w))
    | None => (Raise FileNotFoundError, w)
    end.

(** [module_names()]: the entries of the current directory that hold an
    [__init__.py]. *)
Definition module_names : M (list str) :=
  let! fs := read files in
  ret (filter (fun module_name => isfile fs module_name (py "__init__.py") = true)
              listdir_cwd).


(** *** The auditor *)

(** The loop [for row in reader] of [tidy], on the two dictionaries of
    styles of address. *)
Fixpoint read_styles (rows : list (gmap str str)) (styles : gmap str str * gmap str str)
  : result (gmap str str * gmap str str) :=
  match rows with
  | [] => Ok styles
  | row :: rest =>
    match getitem row (py "Identifier") with
    | Raise e => Raise e
    | Ok key =>
      match getitem row (py "Leader") with
      | Raise e => Raise e
      | Ok leader =>
        match getitem row (py "Member") with
        | Raise e => Raise e
        | Ok member =>
          read_styles rest (<[key := leader]> (fst styles), <[key := member]> (snd styles))
        end
      end
    end
  end.

(** The loop [for gid in range(3)]. *)
Fixpoint load_styles (gids : list nat) (styles : gmap str str * gmap str str)
  : result (gmap str str * gmap str str) :=
  match gids with
  | [] => Ok styles
  | gid :: rest =>
    match styles_of_address gid with
    | Raise e => Raise e
    | Ok rows =>
      match read_styles rows styles with
      | Raise e => Raise e
      | Ok styles' => load_styles rest styles'
      end
    end
  end.

(** The rewriting of the class name in the [.py] files of a module
    directory. *)
Definition rename_class (module_name class_name expected_class_name : str) : M unit :=
  let! basenames := listdir module_name in
  for_each basenames (fun basename =>
    if endswith basename (py ".py") then
      let! content := read_file module_name basename in
      write_file module_name basename
        (replace (class_name ++ py "(") (expected_class_name ++ py "(") content)
    else ret tt).

(** The rewriting of the division name and of the URL in [__init__.py];
    the file is opened for writing, hence emptied, before the new content
    is computed. *)
Definition rewrite_init (module_name : str) (division_name url : value)
  (expected : Expected.t) : M unit :=
  let init := py "__init__.py" in
  let! content := read_file module_name init in
  write_file module_name init [] ;;
  let! content :=
    if differs division_name (Expected.division_name expected) then
      match division_name with
      | VStr old =>
        ret (replace (py "= " ++ old) (py "= " ++ Expected.division_name expected) content)
      | VNone => raise TypeError
      end
    else ret content in
  let! content :=
    if truthy (VStr (Expected.url expected)) && differs url (Expected.url expected) then
      match url with
      | VStr old => ret (replace old (Expected.url expected) content)
      | VNone => raise TypeError
      end
    else ret content in
  write_file module_name init content.

(** The body of the loop [for module_name in module_names()] of [tidy].
    The two sets of identifiers seen so far are passed in and out.
    [derive] is the function called where the source calls
    [get_definition]. *)
Definition tidy_module (derive : str -> bool -> M Expected.t)
  (leader_styles member_styles : gmap str str)
  (module_name : str) (seen : gset str * gset str) : M (gset str * gset str) :=
  if endswith module_name (py "_candidates") || endswith module_name (py "_municipalities")
  then ret seen
  else
    let! metadata := lift (module_name_to_metadata module_name) in
    let! metadata :=
      match metadata with
      | Some metadata => ret metadata
      | None => raise TypeError
      end in
    (* Ensure division_id is unique. *)
    let division_id := Metadata.division_id metadata in
    let! division_ids :=
      if bool_decide (division_id ∈ fst seen) then
        print (Duplicate_division_id module_name division_id) ;; ret (fst seen)
      else ret ({[division_id]} ∪ fst seen) in
    (* Ensure jurisdiction_id is unique. *)
    let jurisdiction_id := Metadata.jurisdiction_id metadata in
    let! jurisdiction_ids :=
      if bool_decide (jurisdiction_id ∈ snd seen) then
        print (Duplicate_jurisdiction_id module_name jurisdiction_id) ;; ret (snd seen)
      else ret ({[jurisdiction_id]} ∪ snd seen) in
    let! expected := derive division_id (endswith module_name (py "_municipalities")) in
    (* Ensure presence of url and styles of address. *)
    (if negb (bool_decide (is_Some (member_styles !! division_id))) then
       print (Missing_member_style module_name division_id)
     else ret tt) ;;
    (if negb (bool_decide (is_Some (leader_styles !! division_id))) then
       print (Missing_leader_style module_name division_id)
     else ret tt) ;;
    let url := Metadata.url metadata in
    (if truthy url && negb (truthy (VStr (Expected.url expected))) then
       let! parsed := lift (urlsplit (to_str url)) in
       if negb (str_in (scheme parsed) [py "http"; py "https"])
          || truthy (VStr (path parsed)) || truthy (VStr (query parsed))
          || truthy (VStr (fragment parsed))
       then print (Check_url module_name (to_str url))
       else ret tt
     else ret tt) ;;
    (* Warn if the name or classification may be incorrect. *)
    let name := Metadata.name metadata in
    (if differs name (Expected.name expected) then
       match name with
       | VStr n => print (Expected_name n (Expected.name expected))
       | VNone => raise TypeError
       end
     else ret tt) ;;
    let classification := Metadata.classification metadata in
    (if differs classification (py "legislature") then
       match classification with
       | VStr c => print (Expected_legislature c)
       | VNone => raise TypeError
       end
     else ret tt) ;;
    (* Name the classes correctly. *)
    let class_name := Metadata.class_name metadata in
    (if negb (str_eqb class_name (Expected.class_name expected)) then
       rename_class module_name class_name (Expected.class_name expected)
     else ret tt) ;;
    (* Set the division_name and url appropriately. *)
    let division_name := Metadata.division_name metadata in
    (if differs division_name (Expected.division_name expected)
        || (truthy (VStr (Expected.url expected)) && differs url (Expected.url expected))
     then rewrite_init module_name division_name url expected
     else ret tt) ;;
    (* Name the module correctly. *)
    (if negb (str_eqb module_name (Expected.module_name expected)) then
       print (Expected_module_name module_name (Expected.module_name expected))
     else ret tt) ;;
    ret (division_ids, jurisdiction_ids).

(** The loop over the module names, threading the two sets. *)
Fixpoint tidy_modules (derive : str -> bool -> M Expected.t)
  (leader_styles member_styles : gmap str str)
  (names : list str) (seen : gset str * gset str) : M (gset str * gset str) :=
  match names with
  | [] => ret seen
  | module_name :: rest =>
    let! seen' := tidy_module derive leader_styles member_styles module_name seen in
    tidy_modules derive leader_styles member_styles rest seen'
  end.

(** [tidy()], with the function that derives the expected configuration
    as a parameter. *)
Definition tidy_with (derive : str -> bool -> M Expected.t) : M unit :=
  let! styles := lift (load_styles [0; 1; 2]%nat (∅, ∅)) in
  let! names := module_names in
  tidy_modules derive (fst styles) (snd styles) names (∅, ∅) ;;
  ret tt.

(** [tidy()]: checks that modules are configured correctly. *)
Definition tidy : M unit := tidy_with get_definition.

End Tasks.

(** ** A small registry, for examples *)

(** A row of [country-ca.csv] with its [sgc], [classification] and [url]
    columns. *)
Definition row (id name type sgc classification url : str) (parent : option Division.t)
  : Division.t :=
  Division.mk id name type
    (<[py "sgc" := sgc]> (<[py "classification" := classification]> (<[py "url" := url]> ∅)))
    parent.

Definition canada : Division.t :=
  row (py "ocd-division/country:ca") (py "Canada") (py "country") (py "01") [] [] None.

Definition nova_scotia : Division.t :=
  row (py "ocd-division/country:ca/province:ns") (py "Nova Scotia") (py "province")
      (py "12") [] [] (Some canada).

Definition new_brunswick : Division.t :=
  row (py "ocd-division/country:ca/province:nb") (py "New Brunswick") (py "province")
      (py "13") [] [] (Some canada).

Definition quebec : Division.t :=
  row (py "ocd-division/country:ca/province:qc") (py "Québec") (py "province")
      (py "24") [] [] (Some canada).

Definition ontario : Division.t :=
  row (py "ocd-division/country:ca/province:on") (py "Ontario") (py "province")
      (py "35") [] [] (Some canada).

Definition yukon : Division.t :=
  row (py "ocd-division/country:ca/territory:yt") (py "Yukon") (py "territory")
      (py "60") [] [] (Some canada).

Definition cape_breton : Division.t :=
  row (py "ocd-division/country:ca/csd:1217030") (py "Cape Breton") (py "csd")
      (py "1217030") (py "RGM") [] (Some canada).

Definition moncton : Division.t :=
  row (py "ocd-division/country:ca/csd:1307022") (py "Moncton") (py "csd")
      (py "1307022") (py "CY") (py "http://www.moncton.ca") (Some canada).

Definition quebec_city : Division.t :=
  row (py "ocd-division/country:ca/csd:2423027") (py "Québec") (py "csd")
      (py "2423027") (py "V") [] (Some canada).

Definition amos : Division.t :=
  row (py "ocd-division/country:ca/csd:2488055") (py "Amos") (py "csd")
      (py "2488055") (py "V") [] (Some canada).

Definition montreal : Division.t :=
  row (py "ocd-division/country:ca/csd:2466023") (py "Montréal") (py "csd")
      (py "2466023") (py "V") [] (Some canada).

Definition plateau : Division.t :=
  row (py "ocd-division/country:ca/csd:2466023/arrondissement:le_plateau-mont-royal")
      (py "Le Plateau-Mont-Royal") (py "arrondissement") [] [] [] (Some montreal).

Definition anjou : Division.t :=
  row (py "ocd-division/country:ca/csd:2466023/arrondissement:anjou")
      (py "Anjou") (py "arrondissement") [] [] [] (Some montreal).

Definition verdun : Division.t :=
  row (py "ocd-division/country:ca/csd:2466023/arrondissement:verdun")
      (py "Verdun") (py "arrondissement") [] [] [] (Some montreal).

Definition sample_csv : list Division.t :=
  [canada; nova_scotia; new_brunswick; quebec; ontario; yukon; cape_breton;
   moncton; quebec_city; amos; montreal; plateau; anjou; verdun].

(** Header cells of the two tables of census type names. *)
Definition sample_t1_4 : result (list str) :=
  Ok [py "CDR – Census division / Division de recensement";
      py "CTY – County / Comté"].

Definition sample_t1_5 : result (list str) :=
  Ok [py "CY" ++ [0xA0] ++ py "– City / Cité";
      py "MÉ" ++ [0xA0] ++ py "– Municipalité";
      py "RGM" ++ [0xA0] ++ py "– Regional municipality / Municipalité régionale";
      py "V" ++ [0xA0] ++ py "– Ville"].

(** The state of a process that has just started, with no file. *)
Definition fresh : world := World ∅ ∅ ∅ [].

(** A census subdivision whose name is written in capitals. *)
Definition iles_capitals : Division.t :=
  row (py "ocd-division/country:ca/csd:2401023") (py "ÎLES-DE-LA-MADELEINE") (py "csd")
      (py "2401023") (py "MÉ") [] (Some canada).

Definition capitals_csv : list Division.t := [canada; quebec; iles_capitals].

(** What is expected of the Plateau with the aggregation flag. *)
Definition plateau_municipalities : Expected.t :=
  Expected.mk (py "ca_qc_montreal_le_plateau_mont_royal")
    (py "Conseil d'arrondissement du Plateau-Mont-Royal")
    (py "LePlateauMontRoyalMunicipalities") [] (py "Le Plateau-Mont-Royal").

(** A module that defines a scraper class and no jurisdiction. *)
Definition sample_modules_no_jurisdiction : gmap str (list pyobject) :=
  {[ py "ca_nb_moncton" :=
       [PyObject (Some (py "MonctonPersonScraper"))
                 {[ py "csv_url" := VStr (py "http://www.moncton.ca/councillors.csv") ]}] ]}.

(** ** Module sets, for examples *)

(** A jurisdiction class with its five attributes. *)
Definition jurisdiction (class_name division_id division_name name url : str) : pyobject :=
  PyObject (Some class_name)
    (<[py "classification" := VStr (py "legislature")]>
       (<[py "division_id" := VStr division_id]>
          (<[py "division_name" := VStr division_name]>
             (<[py "name" := VStr name]> (<[py "url" := VStr url]> ∅))))).

(** The base class that every module imports: it has no [division_id]. *)
Definition CanadianJurisdiction : pyobject :=
  PyObject (Some (py "CanadianJurisdiction")) ∅.

(** [urlsplit] on the URLs of the examples. *)
Definition sample_urlsplit (url : str) : result SplitResult :=
  if str_eqb url (py "http://www.ontla.on.ca") then
    Ok (Build_SplitResult (py "http") (py "www.ontla.on.ca") [] [] [])
  else if str_eqb url (py "http://www.moncton.ca") then
    Ok (Build_SplitResult (py "http") (py "www.moncton.ca") [] [] [])
  else Raise ValueError.

(** One sheet of styles of address, on the first page. *)
Definition sample_styles (gid : nat) : result (list (gmap str str)) :=
  match gid with
  | O =>
    Ok [ <[py "Identifier" := Division.id ontario]>
           (<[py "Leader" := py "Premier"]> (<[py "Member" := py "MPP"]> ∅));
         <[py "Identifier" := Division.id moncton]>
           (<[py "Leader" := py "Mayor"]> (<[py "Member" := py "Councillor"]> ∅)) ]
  | _ => Ok []
  end.

(** Ontario and its roll-up of municipalities declare the same
    [division_id]. *)
Definition ontario_modules : gmap str (list pyobject) :=
  <[py "ca_on" :=
      [CanadianJurisdiction;
       jurisdiction (py "Ontario") (Division.id ontario) (py "Ontario")
         (py "Legislative Assembly of Ontario") (py "http://www.ontla.on.ca")]]>
    (<[py "ca_on_municipalities" :=
         [CanadianJurisdiction;
          jurisdiction (py "OntarioMunicipalities") (Division.id ontario) (py "Ontario")
            (py "Ontario Municipalities") (py "http://www.ontla.on.ca")]]> ∅).

Definition ontario_listdir : list str :=
  [py "README.md"; py "ca_on"; py "ca_on_municipalities"].

Definition ontario_world : world :=
  World ∅ ∅
    (<[py "ca_on" :=
         [(py "__init__.py", py "class Ontario(CanadianJurisdiction):");
          (py "people.py", py "class OntarioPersonScraper(CanadianScraper):")]]>
       (<[py "ca_on_municipalities" :=
            [(py "__init__.py", py "class OntarioMunicipalities(CanadianJurisdiction):");
             (py "people.py", py "class OntarioMunicipalitiesPersonScraper(CSVScraper):")]]>
          ∅))
    [].

(** Two audited modules declare the identifier of Moncton. *)
Definition moncton_modules : gmap str (list pyobject) :=
  <[py "ca_nb_moncton" :=
      [CanadianJurisdiction;
       jurisdiction (py "Moncton") (Division.id moncton) (py "Moncton")
         (py "Moncton City Council") (py "http://www.moncton.ca")]]>
    (<[py "ca_on" :=
         [CanadianJurisdiction;
          jurisdiction (py "Ontario") (Division.id ontario) (py "Ontario")
            (py "Legislative Assembly of Ontario") (py "http://www.ontla.on.ca")]]>
       (<[py "ca_nb_greater_moncton" :=
            [CanadianJurisdiction;
             jurisdiction (py "GreaterMoncton") (Division.id moncton) (py "Moncton")
               (py "Moncton City Council") (py "http://www.moncton.ca")]]> ∅)).

Definition moncton_listdir : list str :=
  [py "ca_nb_moncton"; py "ca_on"; py "ca_nb_greater_moncton"].

Definition moncton_world : world :=
  World ∅ ∅
    (<[py "ca_nb_moncton" :=
         [(py "__init__.py", py "class Moncton(CanadianJurisdiction):")]]>
       (<[py "ca_on" :=
            [(py "__init__.py", py "class Ontario(CanadianJurisdiction):")]]>
          (<[py "ca_nb_greater_moncton" :=
               [(py "__init__.py", py "class GreaterMoncton(CanadianJurisdiction):")]]>
             ∅)))
    [].

(** ** The class name, in the words of the specification *)

(** Strip apostrophes and periods. *)
Definition strip_apostrophes_and_periods (s : str) : str :=
  List.filter (fun c => negb ((c =? 0x27) || (c =? 0x2E))) s.

(** Normalize en-dash and em-dash to a single dash. *)
Definition normalize_dashes (s : str) : str :=
  map (fun c => if (c =? 0x2013) || (c =? 0x2014) then 0x2D else c) s.

(** Split on spaces and dashes: [word] is the word being read, last
    character first. *)
Fixpoint split_words (s : str) (word : str) : list str :=
  match s with
  | [] => [rev word]
  | c :: r =>
    if (c =? 0x20) || (c =? 0x2D) then rev word :: split_words r []
    else split_words r (c :: word)
  end.

(** The word starts with an upper-case letter: a character that
    lowercasing changes. *)
Definition starts_uppercase (word : str) : bool :=
  match word with
  | c :: _ => negb (lower_char c =? c)
  | [] => false
  end.

(** The word starts with one of the ASCII letters [A] to [Z]. *)
Definition starts_ascii_uppercase (word : str) : bool :=
  match word with
  | c :: _ => (0x41 <=? c) && (c <=? 0x5A)
  | [] => false
  end.

(** Following the specification: strip, normalize, split, capitalize each
    word unless [already_upper] holds of it, concatenate, transliterate,
    and append the suffix word when [aggregation] is set. *)
Definition class_name_by_words (already_upper : str -> bool)
  (name : str) (aggregation : bool) : str :=
  let words := split_words (normalize_dashes (strip_apostrophes_and_periods name)) [] in
  let capitalized := map (fun word => if already_upper word then word else capitalize word) words in
  unidecode (concat capitalized) ++ (if aggregation then py "Municipalities" else []).

(** ** Vocabulary of the statements *)

(** The characters that [slug] returns as they are: ASCII, except the
    upper-case letters and the four characters of the translation table. *)
Definition kept_by_slug (c : N) : bool :=
  (c <? 0x80) && negb ((0x41 <=? c) && (c <=? 0x5A))
  && negb (char_in c (py " '-.")).

(** A character whose slug is made of characters that [slug] keeps. *)
Definition slug_stable (c : N) : bool := forallb kept_by_slug (slug [c]).

(** The guard [if not ocdid_to_type_name_map:] and its body ran from
    world [w] without an exception and left world [w1]. *)
Definition type_names_ready (country_ca : list Division.t) (t1_4 t1_5 : result (list str))
  (w w1 : world) : Prop :=
  (if dict_empty (ocdid_to_type_name_map w) then load_type_names country_ca t1_4 t1_5
   else ret tt) w = (Ok tt, w1).

(** The body name of a province or territory. *)
Definition province_name (code name : str) (aggregation : bool) : str :=
  if aggregation then name ++ py " Municipalities"
  else if str_in code [py "nl"; py "ns"] then name ++ py " House of Assembly"
  else if str_eqb code (py "qc") then py "Assemblée nationale du Québec"
  else py "Legislative Assembly of " ++ name.

(** The field [f] of what a call returned. *)
Definition returned {A B : Type} (f : A -> B) (r : result A * world) : option B :=
  match fst r with
  | Ok a => Some (f a)
  | Raise _ => None
  end.

(** The body of the loop of [province_or_territory_abbreviation]. *)
Definition memo_body (division : Division.t) : M unit :=
  if str_in (Division._type division) [py "province"; py "territory"] then
    let! v := lift (type_id (Division.id division)) in
    let! k := lift (getitem (Division.attrs division) (py "sgc")) in
    memo_set k v
  else ret tt.

(** The module is audited: [tidy] does not skip it. *)
Definition audited (module_name : str) : bool :=
  negb (endswith module_name (py "_candidates")
        || endswith module_name (py "_municipalities")).

(** The two identifiers whose duplicates [tidy] reports. *)
Inductive id_kind : Type := Division_id | Jurisdiction_id.

Definition id_of (k : id_kind) (metadata : Metadata.t) : str :=
  match k with
  | Division_id => Metadata.division_id metadata
  | Jurisdiction_id => Metadata.jurisdiction_id metadata
  end.

Definition seen_of (k : id_kind) (seen : gset str * gset str) : gset str :=
  match k with
  | Division_id => fst seen
  | Jurisdiction_id => snd seen
  end.

(** The finding that reports identifier [x] as a duplicate in module [m]. *)
Definition duplicate (k : id_kind) (m x : str) : Finding :=
  match k with
  | Division_id => Duplicate_division_id m x
  | Jurisdiction_id => Duplicate_jurisdiction_id m x
  end.

(** The finding reports a duplicate of kind [k]. *)
Definition is_duplicate_kind (k : id_kind) (f : Finding) : bool :=
  match k, f with
  | Division_id, Duplicate_division_id _ _ => true
  | Jurisdiction_id, Duplicate_jurisdiction_id _ _ => true
  | _, _ => false
  end.

(** The finding reports identifier [x] as a duplicate of kind [k]. *)
Definition is_duplicate (k : id_kind) (x : str) (f : Finding) : bool :=
  match k, f with
  | Division_id, Duplicate_division_id _ y => str_eqb y x
  | Jurisdiction_id, Duplicate_jurisdiction_id _ y => str_eqb y x
  | _, _ => false
  end.

(** The finding is no report of a duplicate. *)
Definition other (f : Finding) : bool :=
  match f with
  | Duplicate_division_id _ _ | Duplicate_jurisdiction_id _ _ => false
  | _ => true
  end.

(** The computation prints no report of a duplicate, and what it returns
    satisfies [Q]. *)
Definition quiet {A : Type} (Q : A -> Prop) (c : M A) : Prop :=
  forall w r w', c w = (r, w') ->
    (exists out, stdout w' = stdout w ++ out /\ forallb other out = true) /\
    (forall a, r = Ok a -> Q a).

(** The reports of duplicates of kind [k] of a run over [names] that
    started with the identifiers [seen]. *)
Fixpoint duplicates (modules : gmap str (list pyobject)) (k : id_kind)
  (names : list str) (seen : gset str) : list Finding :=
  match names with
  | [] => []
  | m :: rest =>
    if audited m then
      match module_name_to_metadata modules m with
      | Ok (Some metadata) =>
        let x := id_of k metadata in
        if bool_decide (x ∈ seen) then duplicate k m x :: duplicates modules k rest seen
        else duplicates modules k rest ({[x]} ∪ seen)
      | _ => duplicates modules k rest seen
      end
    else duplicates modules k rest seen
  end.

(** The world after [print(f)]. *)
Definition printed (f : Finding) (w : world) : world :=
  World (province_or_territory_abbreviation_memo w) (ocdid_to_type_name_map w)
        (files w) (stdout w ++ [f]).

(** ** Vocabulary and examples of the further properties *)






(** Two census divisions, and the table of their type names. *)
Definition halifax_county : Division.t :=
  row (py "ocd-division/country:ca/cd:1209") (py "Halifax") (py "cd")
      (py "1209") (py "CTY") [] (Some canada).

Definition york : Division.t :=
  row (py "ocd-division/country:ca/cd:3519") (py "York") (py "cd")
      (py "3519") (py "RM") [] (Some canada).

Definition cd_csv : list Division.t := [canada; nova_scotia; ontario; halifax_county; york].

Definition cd_t1_4 : result (list str) :=
  Ok [py "CTY – County / Comté";
      py "RM – Regional municipality / Municipalité régionale"].


(** A module whose jurisdiction class has no [classification]. *)
Definition unclassified_modules : gmap str (list pyobject) :=
  {[ py "ca_nb_moncton" :=
       [CanadianJurisdiction;
        PyObject (Some (py "Moncton"))
          (<[py "division_id" := VStr (Division.id moncton)]>
             (<[py "division_name" := VStr (py "Moncton")]>
                (<[py "name" := VStr (py "Moncton City Council")]>
                   (<[py "url" := VStr (py "http://www.moncton.ca")]> ∅))))] ]}.

(** * Properties *)

(** ** Slugification *)

Example slug_moncton : slug (py "Moncton") = py "moncton".
Proof. reflexivity. Qed.

Example slug_cape_breton : slug (py "Cape Breton") = py "cape_breton".
Proof. reflexivity. Qed.

Example slug_quebec : slug (py "Québec") = py "quebec".
Proof. vm_compute. reflexivity. Qed.

Example slug_st_johns : slug (py "St. John's") = py "st_john_s".
Proof. vm_compute. reflexivity. Qed.

Example slug_dashes : slug (py "Rosemont–La Petite-Patrie") = py "rosemont_la_petite_patrie".
Proof. vm_compute. reflexivity. Qed.

(** [slug] works character by character. *)
Lemma slug_app (a b : str) : slug (a ++ b) = slug a ++ slug b.
Proof.
  unfold slug, unidecode, translate, lower.
  now rewrite map_app, !flat_map_app.
Qed.

Lemma slug_cons (c : N) (x : str) : slug (c :: x) = slug [c] ++ slug x.
Proof. apply (slug_app [c] x). Qed.

Lemma below_128 (P : N -> bool) :
  forallb (fun n => P (N.of_nat n)) (seq 0 128) = true ->
  forall c, c < 0x80 -> P c = true.
Proof.
  intros H c Hc.
  rewrite forallb_forall in H.
  rewrite <- (N2Nat.id c). apply H, in_seq. lia.
Qed.

Lemma slug_kept (c : N) : kept_by_slug c = true -> slug [c] = [c].
Proof.
  intros H.
  assert (Hc : c < 0x80).
  { unfold kept_by_slug in H. apply andb_prop in H as [H _].
    apply andb_prop in H as [H _]. now apply N.ltb_lt. }
  pose proof (below_128
    (fun c => implb (kept_by_slug c) (str_eqb (slug [c]) [c]))) as E.
  specialize (E ltac:(vm_compute; reflexivity) c Hc).
  cbv beta in E. rewrite H in E. simpl in E.
  unfold str_eqb in E. now apply bool_decide_eq_true in E.
Qed.

Lemma slug_fixed (l : str) : forallb kept_by_slug l = true -> slug l = l.
Proof.
  induction l as [|c l IH]; intros H; [reflexivity|].
  simpl in H. apply andb_prop in H as [Hc Hl].
  rewrite slug_cons, (slug_kept c Hc), (IH Hl). reflexivity.
Qed.

(** Every ASCII character is stable. *)
Lemma ascii_slug_stable (c : N) : c < 0x80 -> slug_stable c = true.
Proof. apply (below_128 slug_stable). vm_compute. reflexivity. Qed.

(** C2, as stated, fails: the right single quotation mark U+2019 is no
    key of the translation table, [unidecode] turns it into an
    apostrophe, and a second [slug] turns that apostrophe into an
    underscore. *)
Lemma slug_not_idempotent :
  slug (py "L’Islet") = py "l'islet" /\
  slug (slug (py "L’Islet")) = py "l_islet" /\
  slug (slug (py "L’Islet")) <> slug (py "L’Islet").
Proof. vm_compute. repeat split. discriminate. Qed.

(** C2, amended: [slug (slug x) = slug x] for every string [x] of
    characters of U+0000..U+00FF and of the dashes, quotation marks and
    ellipsis whose transliteration is modelled ([has_row]; none of them
    has a case), each of which has a slug made only of characters that
    [slug] keeps (ASCII other than [A-Z], space, apostrophe, dash and
    period).  Every ASCII string is such a string
    ([ascii_slug_stable]), and so are the accented Latin letters. *)
Theorem slug_idempotent_on_stable (x : str) :
  forallb has_row x = true ->
  forallb slug_stable x = true ->
  slug (slug x) = slug x.
Proof.
  intros _.
  induction x as [|c x IH]; intros H; [reflexivity|].
  simpl in H. apply andb_prop in H as [Hc Hx].
  rewrite slug_cons, slug_app, (IH Hx).
  f_equal. apply slug_fixed, Hc.
Qed.

Lemma slug_idempotent_on_stable_witness :
  slug (slug (py "Québec–St. John's")) = slug (py "Québec–St. John's").
Proof.
  apply (slug_idempotent_on_stable (py "Québec–St. John's")).
  - vm_compute. reflexivity.
  - vm_compute. reflexivity.
Defined.

(** ** Reasoning about computations *)

Lemma bind_Ok {A B : Type} (c : M A) (k : A -> M B) (w w1 : world) (a : A) :
  c w = (Ok a, w1) -> bind c k w = k a w1.
Proof. intros H. unfold bind. now rewrite H. Qed.

Lemma bind_Raise {A B : Type} (c : M A) (k : A -> M B) (w w1 : world) (e : exn) :
  c w = (Raise e, w1) -> bind c k w = (Raise e, w1).
Proof. intros H. unfold bind. now rewrite H. Qed.

Lemma bind_read {A B : Type} (f : world -> A) (k : A -> M B) (w : world) :
  bind (read f) k w = k (f w) w.
Proof. reflexivity. Qed.

Lemma bind_lift_Ok {A B : Type} (a : A) (k : A -> M B) (w : world) :
  bind (lift (Ok a)) k w = k a w.
Proof. reflexivity. Qed.

Lemma bind_ret {A B : Type} (a : A) (k : A -> M B) (w : world) :
  bind (ret a) k w = k a w.
Proof. reflexivity. Qed.

Lemma bind_bind {A B C : Type} (c : M A) (k1 : A -> M B) (k2 : B -> M C) (w : world) :
  bind (bind c k1) k2 w = bind c (fun a => bind (k1 a) k2) w.
Proof. unfold bind. now destruct (c w) as [[a|e] w1]. Qed.

Lemma bind_Ok_inv {A B : Type} (c : M A) (k : A -> M B) (w w' : world) (b : B) :
  bind c k w = (Ok b, w') ->
  exists a w1, c w = (Ok a, w1) /\ k a w1 = (Ok b, w').
Proof.
  unfold bind. destruct (c w) as [[a|e] w1]; intros H; [eauto|discriminate].
Qed.

Lemma read_inv {A : Type} (f : world -> A) (w w1 : world) (a : A) :
  read f w = (Ok a, w1) -> a = f w /\ w1 = w.
Proof. unfold read. intros [= <- <-]. auto. Qed.

Lemma lift_inv {A : Type} (r : result A) (w w1 : world) (a : A) :
  lift r w = (Ok a, w1) -> r = Ok a /\ w1 = w.
Proof. unfold lift. intros [= -> <-]. auto. Qed.

Lemma ret_inv {A : Type} (x a : A) (w w1 : world) :
  ret x w = (Ok a, w1) -> a = x /\ w1 = w.
Proof. unfold ret. intros [= <- <-]. auto. Qed.

(** Peels the binds of a computation known to return. *)
Ltac peel H :=
  repeat
    (let a := fresh "a" in
     let w := fresh "w" in
     let E := fresh "E" in
     apply bind_Ok_inv in H as (a & w & E & H);
     first [ apply read_inv in E as [-> ->]
           | apply lift_inv in E as [E ->]
           | apply ret_inv in E as [-> ->]
           | idtac ]).

Lemma str_eqb_eq (a b : str) : str_eqb a b = true <-> a = b.
Proof. unfold str_eqb. apply bool_decide_eq_true. Qed.

Lemma str_eqb_neq (a b : str) : str_eqb a b = false <-> a <> b.
Proof. unfold str_eqb. apply bool_decide_eq_false. Qed.

Lemma str_in_In (x : str) (t : list str) : str_in x t = true <-> In x t.
Proof.
  unfold str_in. rewrite existsb_exists. split.
  - intros (y & Hy & E). apply str_eqb_eq in E. now subst.
  - intros H. exists x. split; [assumption|]. now apply str_eqb_eq.
Qed.

(** ** The naming rules *)

(** What [get_definition] returns for a province or a territory. *)
Lemma get_definition_province country_ca t1_4 t1_5 division_id aggregation w w1 d code u :
  type_names_ready country_ca t1_4 t1_5 w w1 ->
  Division.get country_ca division_id = Ok d ->
  In (Division._type d) [py "province"; py "territory"] ->
  type_id (Division.id d) = Ok code ->
  Division.attrs d !! py "url" = Some u ->
  get_definition country_ca t1_4 t1_5 division_id aggregation w =
  (Ok (Expected.mk
         (if aggregation then py "ca_" ++ code ++ py "_municipalities" else py "ca_" ++ code)
         (province_name code (Division.name d) aggregation)
         (expected_class_name (Division.name d) aggregation)
         u (Division.name d)), w1).
Proof.
  intros Hready Hget Htype Hcode Hurl.
  unfold get_definition.
  rewrite bind_read, (bind_Ok _ _ w w1 tt Hready).
  rewrite Hget, bind_lift_Ok, Hcode, bind_lift_Ok.
  assert (Hc : str_eqb (Division._type d) (py "country") = false).
  { apply str_eqb_neq. intros E. rewrite E in Htype.
    destruct Htype as [H|[H|[]]]; vm_compute in H; discriminate. }
  rewrite Hc. apply str_in_In in Htype. rewrite Htype.
  rewrite bind_ret. unfold getitem. rewrite Hurl, bind_lift_Ok.
  unfold ret, province_name. now destruct aggregation.
Qed.

Lemma endswith_app (x p q : str) :
  endswith p q = true -> endswith (x ++ p) q = true.
Proof.
  unfold endswith. rewrite rev_app_distr.
  generalize (rev p) (rev q) (rev x). clear.
  intros s q. revert s. induction q as [|a q IH]; intros [|b s] y; simpl; try easy.
  intros H. apply andb_prop in H as [-> H]. simpl. now apply IH.
Qed.

Lemma startswith_app (p q x : str) :
  startswith p q = true -> startswith (p ++ x) q = true.
Proof.
  revert p. induction q as [|a q IH]; intros [|b p]; simpl; try easy.
  intros H. apply andb_prop in H as [-> H]. simpl. now apply IH.
Qed.

(** *** C1: the module name and the aggregation flag *)

(** C1, as stated, fails: the flag changes the module name of a province
    or territory only.  For the country, and for a census subdivision
    such as Moncton, the two calls return the same module name. *)
Lemma module_name_suffix_fails :
  let derive d aggregation :=
    fst (get_definition sample_csv sample_t1_4 sample_t1_5 (Division.id d) aggregation fresh) in
  (exists e1 e0,
     derive canada true = Ok e1 /\ derive canada false = Ok e0 /\
     Expected.module_name e1 = py "ca" /\ Expected.module_name e0 = py "ca" /\
     Expected.module_name e1 <> Expected.module_name e0 ++ py "_municipalities") /\
  (exists e1 e0,
     derive moncton true = Ok e1 /\ derive moncton false = Ok e0 /\
     Expected.module_name e1 = py "ca_nb_moncton" /\
     Expected.module_name e0 = py "ca_nb_moncton" /\
     Expected.module_name e1 <> Expected.module_name e0 ++ py "_municipalities").
Proof.
  split; eexists; eexists; (split; [vm_compute; reflexivity|]);
    (split; [vm_compute; reflexivity|]); vm_compute; repeat split; discriminate.
Qed.

(** C1, amended: for a division of type province or territory, once the
    type names are loaded, the identifier has a type ID and the row has a
    [url], both calls return, and the module name derived with the
    aggregation flag is the one derived without it followed by
    ["_municipalities"]. *)
Theorem module_name_municipalities_suffix
  country_ca t1_4 t1_5 division_id w w1 d code u :
  type_names_ready country_ca t1_4 t1_5 w w1 ->
  Division.get country_ca division_id = Ok d ->
  In (Division._type d) [py "province"; py "territory"] ->
  type_id (Division.id d) = Ok code ->
  Division.attrs d !! py "url" = Some u ->
  exists e1 e0,
    get_definition country_ca t1_4 t1_5 division_id true w = (Ok e1, w1) /\
    get_definition country_ca t1_4 t1_5 division_id false w = (Ok e0, w1) /\
    Expected.module_name e1 = Expected.module_name e0 ++ py "_municipalities".
Proof.
  intros Hready Hget Htype Hcode Hurl.
  do 2 eexists. split; [|split].
  - now apply (get_definition_province _ _ _ _ true w w1 d code u).
  - now apply (get_definition_province _ _ _ _ false w w1 d code u).
  - vm_compute. reflexivity.
Qed.

Lemma module_name_municipalities_suffix_witness :
  exists w1 e1 e0,
    get_definition sample_csv sample_t1_4 sample_t1_5 (Division.id ontario) true fresh
      = (Ok e1, w1) /\
    get_definition sample_csv sample_t1_4 sample_t1_5 (Division.id ontario) false fresh
      = (Ok e0, w1) /\
    Expected.module_name e1 = Expected.module_name e0 ++ py "_municipalities".
Proof.
  eexists.
  apply (module_name_municipalities_suffix sample_csv sample_t1_4 sample_t1_5
           (Division.id ontario) fresh _ ontario (py "on") []).
  - vm_compute. reflexivity.
  - vm_compute. reflexivity.
  - left. vm_compute. reflexivity.
  - vm_compute. reflexivity.
  - vm_compute. reflexivity.
Defined.

(** Decides the comparisons of string literals in the goal. *)
Ltac literals :=
  repeat match goal with
         | |- context [str_eqb (py ?a) (py ?b)] =>
           let v := eval vm_compute in (str_eqb (py a) (py b)) in
           change (str_eqb (py a) (py b)) with v
         | |- context [str_in (py ?a) ?l] =>
           let v := eval vm_compute in (str_in (py a) l) in
           change (str_in (py a) l) with v
         end;
  cbv iota.

Lemma str_eqb_single (c x : N) : str_eqb [c] [x] = (c =? x).
Proof.
  unfold str_eqb. destruct (N.eqb_spec c x) as [->|Hne].
  - now apply bool_decide_eq_true_2.
  - apply bool_decide_eq_false_2. congruence.
Qed.

Lemma str_in_singletons (c : N) (l : str) :
  str_in [c] (map (fun x => [x]) l) = char_in c l.
Proof.
  unfold str_in, char_in.
  induction l as [|x l IH]; simpl; [reflexivity|].
  now rewrite str_eqb_single, IH.
Qed.

(** The tuple [vowels] holds the nine characters of the claims. *)
Lemma str_in_vowels (c : N) : str_in [c] vowels = char_in c (py "AÀEÉIÎOÔU").
Proof.
  rewrite <- str_in_singletons. f_equal.
Qed.

Lemma startswith_take (s p : str) :
  startswith s p = true <-> take (length p) s = p.
Proof.
  revert s. induction p as [|a p IH]; intros [|b s]; simpl; try easy.
  rewrite andb_true_iff, IH, N.eqb_eq. split.
  - intros [-> ->]. reflexivity.
  - intros [= -> ->]. auto.
Qed.

Lemma str_eqb_take (s p : str) : str_eqb (take (length p) s) p = startswith s p.
Proof.
  apply eq_true_iff_eq. now rewrite str_eqb_eq, startswith_take.
Qed.

(** *** C6: provinces and territories *)

(** C6: for a division of type province or territory, once the type
    names are loaded, the identifier has a type ID [code] and the row has
    a [url], [get_definition] returns, and the body name is
    ["{name} Municipalities"] with the aggregation flag and otherwise
    ["{name} House of Assembly"] for the codes [nl] and [ns] (so it ends
    with ["House of Assembly"]), the fixed French name for [qc], and
    ["Legislative Assembly of {name}"] for the others. *)
Theorem province_body_name
  country_ca t1_4 t1_5 division_id aggregation w w1 d code u :
  type_names_ready country_ca t1_4 t1_5 w w1 ->
  Division.get country_ca division_id = Ok d ->
  In (Division._type d) [py "province"; py "territory"] ->
  type_id (Division.id d) = Ok code ->
  Division.attrs d !! py "url" = Some u ->
  exists e,
    get_definition country_ca t1_4 t1_5 division_id aggregation w = (Ok e, w1) /\
    Expected.name e =
      (if aggregation then Division.name d ++ py " Municipalities"
       else if str_in code [py "nl"; py "ns"] then Division.name d ++ py " House of Assembly"
       else if str_eqb code (py "qc") then py "Assemblée nationale du Québec"
       else py "Legislative Assembly of " ++ Division.name d) /\
    (aggregation = false -> In code [py "nl"; py "ns"] ->
     endswith (Expected.name e) (py "House of Assembly") = true).
Proof.
  intros Hready Hget Htype Hcode Hurl.
  eexists. split; [|split].
  - now apply (get_definition_province _ _ _ _ aggregation w w1 d code u).
  - reflexivity.
  - intros -> Hin. cbn [Expected.name]. unfold province_name.
    apply str_in_In in Hin. rewrite Hin.
    apply endswith_app. vm_compute. reflexivity.
Qed.

Lemma province_body_name_witness :
  exists w1 e,
    get_definition sample_csv sample_t1_4 sample_t1_5 (Division.id nova_scotia) false fresh
      = (Ok e, w1) /\
    Expected.name e =
      (if false then Division.name nova_scotia ++ py " Municipalities"
       else if str_in (py "ns") [py "nl"; py "ns"]
            then Division.name nova_scotia ++ py " House of Assembly"
       else if str_eqb (py "ns") (py "qc") then py "Assemblée nationale du Québec"
       else py "Legislative Assembly of " ++ Division.name nova_scotia) /\
    (false = false -> In (py "ns") [py "nl"; py "ns"] ->
     endswith (Expected.name e) (py "House of Assembly") = true).
Proof.
  eexists.
  apply (province_body_name sample_csv sample_t1_4 sample_t1_5
           (Division.id nova_scotia) false fresh _ nova_scotia (py "ns") []).
  - vm_compute. reflexivity.
  - vm_compute. reflexivity.
  - left. vm_compute. reflexivity.
  - vm_compute. reflexivity.
  - vm_compute. reflexivity.
Defined.

Example nova_scotia_name :
  returned Expected.name
    (get_definition sample_csv sample_t1_4 sample_t1_5 (Division.id nova_scotia) false fresh)
  = Some (py "Nova Scotia House of Assembly").
Proof. vm_compute. reflexivity. Qed.

Example quebec_name :
  returned Expected.name
    (get_definition sample_csv sample_t1_4 sample_t1_5 (Division.id quebec) false fresh)
  = Some (py "Assemblée nationale du Québec").
Proof. vm_compute. reflexivity. Qed.

Example yukon_name :
  returned Expected.name
    (get_definition sample_csv sample_t1_4 sample_t1_5 (Division.id yukon) false fresh)
  = Some (py "Legislative Assembly of Yukon").
Proof. vm_compute. reflexivity. Qed.

Example ontario_municipalities :
  returned (fun e => (Expected.module_name e, Expected.name e, Expected.class_name e))
    (get_definition sample_csv sample_t1_4 sample_t1_5 (Division.id ontario) true fresh)
  = Some (py "ca_on_municipalities", py "Ontario Municipalities", py "OntarioMunicipalities").
Proof. vm_compute. reflexivity. Qed.

(** *** C7: the census subdivisions of Québec *)

(** What [get_definition] returns for a census subdivision whose type ID
    starts with [24]. *)
Lemma get_definition_csd_24
  country_ca t1_4 t1_5 division_id aggregation w w1 w2 d code abbreviation c rest u :
  type_names_ready country_ca t1_4 t1_5 w w1 ->
  Division.get country_ca division_id = Ok d ->
  Division._type d = py "csd" ->
  type_id (Division.id d) = Ok code ->
  take 2 code = py "24" ->
  province_or_territory_abbreviation country_ca (Division.id d) w1 = (Ok abbreviation, w2) ->
  Division.name d = c :: rest ->
  Division.attrs d !! py "url" = Some u ->
  get_definition country_ca t1_4 t1_5 division_id aggregation w =
  (Ok (Expected.mk
         (py "ca_" ++ abbreviation ++ py "_" ++ slug (Division.name d))
         (if str_in [c] vowels then py "Conseil municipal d'" ++ Division.name d
          else py "Conseil municipal de " ++ Division.name d)
         (expected_class_name (Division.name d) aggregation)
         u (Division.name d)), w2).
Proof.
  intros Hready Hget Htype Hcode Hprefix Habbr Hname Hurl.
  unfold get_definition.
  rewrite bind_read, (bind_Ok _ _ w w1 tt Hready).
  rewrite Hget, bind_lift_Ok, Hcode, bind_lift_Ok.
  rewrite Htype. literals.
  rewrite bind_bind, (bind_Ok _ _ w1 w2 abbreviation Habbr).
  rewrite Hprefix. literals.
  rewrite Hname. unfold first_char. rewrite bind_bind, bind_lift_Ok.
  unfold getitem. rewrite Hurl.
  destruct (str_in [c] vowels); rewrite bind_ret, bind_lift_Ok; reflexivity.
Qed.

(** C7: for a division of type csd whose OCD type ID starts with [24],
    once the type names are loaded, the province is resolved, the name is
    not empty and the row has a [url], [get_definition] returns, and the
    body name is ["Conseil municipal d'{name}"] when the first character
    of the name is one of A, À, E, É, I, Î, O, Ô, U and
    ["Conseil municipal de {name}"] otherwise; in both cases it starts
    with ["Conseil municipal"]. *)
Theorem csd_quebec_body_name
  country_ca t1_4 t1_5 division_id aggregation w w1 w2 d code abbreviation c rest u :
  type_names_ready country_ca t1_4 t1_5 w w1 ->
  Division.get country_ca division_id = Ok d ->
  Division._type d = py "csd" ->
  type_id (Division.id d) = Ok code ->
  take 2 code = py "24" ->
  province_or_territory_abbreviation country_ca (Division.id d) w1 = (Ok abbreviation, w2) ->
  Division.name d = c :: rest ->
  Division.attrs d !! py "url" = Some u ->
  exists e,
    get_definition country_ca t1_4 t1_5 division_id aggregation w = (Ok e, w2) /\
    Expected.name e =
      (if char_in c (py "AÀEÉIÎOÔU") then py "Conseil municipal d'" ++ Division.name d
       else py "Conseil municipal de " ++ Division.name d) /\
    startswith (Expected.name e) (py "Conseil municipal") = true.
Proof.
  intros Hready Hget Htype Hcode Hprefix Habbr Hname Hurl.
  eexists. split; [|split].
  - now apply (get_definition_csd_24 _ _ _ _ aggregation w w1 w2 d code abbreviation c rest u).
  - cbn [Expected.name]. now rewrite str_in_vowels.
  - cbn [Expected.name].
    destruct (str_in [c] vowels); apply startswith_app; vm_compute; reflexivity.
Qed.

Lemma csd_quebec_body_name_witness :
  exists w2 e,
    get_definition sample_csv sample_t1_4 sample_t1_5 (Division.id amos) false fresh
      = (Ok e, w2) /\
    Expected.name e =
      (if char_in 0x41 (py "AÀEÉIÎOÔU") then py "Conseil municipal d'" ++ Division.name amos
       else py "Conseil municipal de " ++ Division.name amos) /\
    startswith (Expected.name e) (py "Conseil municipal") = true.
Proof.
  eexists.
  eapply (csd_quebec_body_name sample_csv sample_t1_4 sample_t1_5
            (Division.id amos) false fresh _ _ amos (py "2488055") (py "qc")
            0x41 (py "mos") []).
  - vm_compute. reflexivity.
  - vm_compute. reflexivity.
  - vm_compute. reflexivity.
  - vm_compute. reflexivity.
  - vm_compute. reflexivity.
  - vm_compute. reflexivity.
  - vm_compute. reflexivity.
  - vm_compute. reflexivity.
Defined.

Example amos_name :
  returned Expected.name
    (get_definition sample_csv sample_t1_4 sample_t1_5 (Division.id amos) false fresh)
  = Some (py "Conseil municipal d'Amos").
Proof. vm_compute. reflexivity. Qed.

Example quebec_city_name :
  returned (fun e => (Expected.module_name e, Expected.name e))
    (get_definition sample_csv sample_t1_4 sample_t1_5 (Division.id quebec_city) false fresh)
  = Some (py "ca_qc_quebec", py "Conseil municipal de Québec").
Proof. vm_compute. reflexivity. Qed.

Example moncton_definition :
  returned (fun e => (Expected.module_name e, Expected.name e, Expected.class_name e))
    (get_definition sample_csv sample_t1_4 sample_t1_5 (Division.id moncton) false fresh)
  = Some (py "ca_nb_moncton", py "Moncton City Council", py "Moncton").
Proof. vm_compute. reflexivity. Qed.

Example cape_breton_definition :
  returned (fun e => (Expected.module_name e, Expected.name e, Expected.class_name e))
    (get_definition sample_csv sample_t1_4 sample_t1_5 (Division.id cape_breton) false fresh)
  = Some (py "ca_ns_cape_breton", py "Cape Breton Regional Council", py "CapeBreton").
Proof. vm_compute. reflexivity. Qed.

(** *** C8: the arrondissements *)

(** What [get_definition] returns for an arrondissement. *)
Lemma get_definition_arrondissement
  country_ca t1_4 t1_5 division_id aggregation w w1 w2 d code p abbreviation c rest u :
  type_names_ready country_ca t1_4 t1_5 w w1 ->
  Division.get country_ca division_id = Ok d ->
  Division._type d = py "arrondissement" ->
  type_id (Division.id d) = Ok code ->
  Division.parent d = Some p ->
  province_or_territory_abbreviation country_ca (Division.id p) w1 = (Ok abbreviation, w2) ->
  Division.name d = c :: rest ->
  Division.attrs d !! py "url" = Some u ->
  get_definition country_ca t1_4 t1_5 division_id aggregation w =
  (Ok (Expected.mk
         (py "ca_" ++ abbreviation ++ py "_" ++ slug (Division.name p)
             ++ py "_" ++ slug (Division.name d))
         (if str_in [c] vowels then py "Conseil d'arrondissement d'" ++ Division.name d
          else if str_eqb (take 3 (Division.name d)) (py "Le ")
               then py "Conseil d'arrondissement du " ++ drop 3 (Division.name d)
          else py "Conseil d'arrondissement de " ++ Division.name d)
         (expected_class_name (Division.name d) aggregation)
         u (Division.name d)), w2).
Proof.
  intros Hready Hget Htype Hcode Hparent Habbr Hname Hurl.
  unfold get_definition.
  rewrite bind_read, (bind_Ok _ _ w w1 tt Hready).
  rewrite Hget, bind_lift_Ok, Hcode, bind_lift_Ok.
  rewrite Htype. literals.
  rewrite Hparent, bind_bind, bind_ret.
  rewrite bind_bind, (bind_Ok _ _ w1 w2 abbreviation Habbr).
  rewrite Hname. unfold first_char. rewrite bind_bind, bind_lift_Ok.
  unfold getitem. rewrite Hurl.
  destruct (str_in [c] vowels); [|destruct (str_eqb _ _)];
    rewrite bind_ret, bind_lift_Ok; reflexivity.
Qed.

(** C8: for a division of type arrondissement with a parent, once the
    type names are loaded, the parent's province is resolved, the name is
    not empty and the row has a [url], [get_definition] returns, and the
    body name is ["Conseil d'arrondissement d'{name}"] when the name
    starts with one of A, À, E, É, I, Î, O, Ô, U,
    ["Conseil d'arrondissement du {name without its first three
    characters}"] when it starts with ["Le "], and
    ["Conseil d'arrondissement de {name}"] otherwise; for the name
    ["Le Plateau-Mont-Royal"] it is
    ["Conseil d'arrondissement du Plateau-Mont-Royal"]. *)
Theorem arrondissement_body_name
  country_ca t1_4 t1_5 division_id aggregation w w1 w2 d code p abbreviation c rest u :
  type_names_ready country_ca t1_4 t1_5 w w1 ->
  Division.get country_ca division_id = Ok d ->
  Division._type d = py "arrondissement" ->
  type_id (Division.id d) = Ok code ->
  Division.parent d = Some p ->
  province_or_territory_abbreviation country_ca (Division.id p) w1 = (Ok abbreviation, w2) ->
  Division.name d = c :: rest ->
  Division.attrs d !! py "url" = Some u ->
  exists e,
    get_definition country_ca t1_4 t1_5 division_id aggregation w = (Ok e, w2) /\
    Expected.name e =
      (if char_in c (py "AÀEÉIÎOÔU") then py "Conseil d'arrondissement d'" ++ Division.name d
       else if startswith (Division.name d) (py "Le ")
            then py "Conseil d'arrondissement du " ++ drop 3 (Division.name d)
       else py "Conseil d'arrondissement de " ++ Division.name d) /\
    (Division.name d = py "Le Plateau-Mont-Royal" ->
     Expected.name e = py "Conseil d'arrondissement du Plateau-Mont-Royal").
Proof.
  intros Hready Hget Htype Hcode Hparent Habbr Hname Hurl.
  eexists. split; [|split].
  - now apply (get_definition_arrondissement _ _ _ _ aggregation w w1 w2 d code p
                 abbreviation c rest u).
  - cbn [Expected.name]. rewrite str_in_vowels.
    now rewrite <- (str_eqb_take (Division.name d) (py "Le ")).
  - intros E. cbn [Expected.name].
    rewrite E in Hname. injection Hname as <- <-.
    rewrite E. vm_compute. reflexivity.
Qed.

Lemma arrondissement_body_name_witness :
  exists w2 e,
    get_definition sample_csv sample_t1_4 sample_t1_5 (Division.id plateau) false fresh
      = (Ok e, w2) /\
    Expected.name e =
      (if char_in 0x4C (py "AÀEÉIÎOÔU")
       then py "Conseil d'arrondissement d'" ++ Division.name plateau
       else if startswith (Division.name plateau) (py "Le ")
            then py "Conseil d'arrondissement du " ++ drop 3 (Division.name plateau)
       else py "Conseil d'arrondissement de " ++ Division.name plateau) /\
    (Division.name plateau = py "Le Plateau-Mont-Royal" ->
     Expected.name e = py "Conseil d'arrondissement du Plateau-Mont-Royal").
Proof.
  eexists.
  eapply (arrondissement_body_name sample_csv sample_t1_4 sample_t1_5
            (Division.id plateau) false fresh _ _ plateau (py "le_plateau-mont-royal")
            montreal (py "qc") 0x4C (py "e Plateau-Mont-Royal") []).
  - vm_compute. reflexivity.
  - vm_compute. reflexivity.
  - vm_compute. reflexivity.
  - vm_compute. reflexivity.
  - vm_compute. reflexivity.
  - vm_compute. reflexivity.
  - vm_compute. reflexivity.
  - vm_compute. reflexivity.
Defined.

Example plateau_definition :
  returned (fun e => (Expected.module_name e, Expected.name e, Expected.class_name e))
    (get_definition sample_csv sample_t1_4 sample_t1_5 (Division.id plateau) false fresh)
  = Some (py "ca_qc_montreal_le_plateau_mont_royal",
          py "Conseil d'arrondissement du Plateau-Mont-Royal",
          py "LePlateauMontRoyal").
Proof. vm_compute. reflexivity. Qed.

Example anjou_name :
  returned Expected.name
    (get_definition sample_csv sample_t1_4 sample_t1_5 (Division.id anjou) false fresh)
  = Some (py "Conseil d'arrondissement d'Anjou").
Proof. vm_compute. reflexivity. Qed.

Example verdun_name :
  returned Expected.name
    (get_definition sample_csv sample_t1_4 sample_t1_5 (Division.id verdun) false fresh)
  = Some (py "Conseil d'arrondissement de Verdun").
Proof. vm_compute. reflexivity. Qed.

(** *** C9: the class name *)

Example class_name_st_johns :
  expected_class_name (py "St. John's") false = py "StJohns".
Proof. vm_compute. reflexivity. Qed.

Example class_name_ile_d_orleans :
  expected_class_name (py "L'Île-d'Orléans") false = py "LIleDorleans".
Proof. vm_compute. reflexivity. Qed.

Example class_name_dashes :
  expected_class_name (py "Rosemont–La Petite-Patrie") true
  = py "RosemontLaPetitePatrieMunicipalities".
Proof. vm_compute. reflexivity. Qed.

(** What [get_definition] returns holds the class name and the name of
    the division it found. *)
Lemma get_definition_inv country_ca t1_4 t1_5 division_id aggregation w w' e :
  get_definition country_ca t1_4 t1_5 division_id aggregation w = (Ok e, w') ->
  exists d,
    Division.get country_ca division_id = Ok d /\
    Expected.class_name e = expected_class_name (Division.name d) aggregation /\
    Expected.division_name e = Division.name d /\
    Division.attrs d !! py "url" = Some (Expected.url e).
Proof.
  unfold get_definition. intros H.
  peel H. apply ret_inv in H as [-> ->].
  match goal with E : Division.get _ _ = Ok ?d |- _ => exists d end.
  repeat split; try assumption.
  cbn [Expected.url].
  match goal with E : getitem _ _ = Ok _ |- _ =>
    unfold getitem in E; destruct (_ !! _); [now inversion E|discriminate] end.
Qed.

Lemma re_sub_strips (s : str) :
  re_sub_class (py "'.") [] s = strip_apostrophes_and_periods s.
Proof.
  change (py "'.") with [0x27; 0x2E].
  unfold re_sub_class, strip_apostrophes_and_periods, char_in. cbn [existsb].
  induction s as [|c s IH]; [reflexivity|].
  cbn [flat_map List.filter]. rewrite IH, orb_false_r.
  now destruct (_ || _).
Qed.

Lemma re_sub_normalizes (s : str) :
  re_sub_class (py "—–") (py "-") s = normalize_dashes s.
Proof.
  change (py "—–") with [0x2014; 0x2013]. change (py "-") with [0x2D].
  unfold re_sub_class, normalize_dashes, char_in. cbn [existsb].
  induction s as [|c s IH]; [reflexivity|].
  cbn [flat_map map]. rewrite IH, orb_false_r, (orb_comm (c =? 0x2014)).
  now destruct (_ || _).
Qed.

Lemma re_split_nonempty (cls s : str) : re_split_class cls s <> [].
Proof.
  destruct s as [|c s]; simpl; [easy|].
  destruct (char_in c cls); [easy|]. now destruct (re_split_class cls s).
Qed.

Lemma re_split_words (s word : str) :
  split_words s word =
  (rev word ++ hd [] (re_split_class (py " -") s)) :: tl (re_split_class (py " -") s).
Proof.
  change (py " -") with [0x20; 0x2D].
  revert word. induction s as [|c s IH]; intros word.
  - simpl. now rewrite app_nil_r.
  - cbn [split_words re_split_class char_in existsb]. rewrite orb_false_r.
    pose proof (re_split_nonempty [0x20; 0x2D] s) as Hne.
    destruct (_ || _).
    + rewrite (IH []). cbn [hd tl rev app]. rewrite app_nil_r.
      now destruct (re_split_class _ s).
    + rewrite (IH (c :: word)). cbn [rev].
      destruct (re_split_class _ s) as [|w ws]; [easy|].
      cbn [hd tl]. now rewrite <- app_assoc.
Qed.

(** The class name of the source is the one of the specification's
    words, a word being left as it is when it starts with an ASCII
    upper-case letter. *)
Lemma expected_class_name_by_words (name : str) (aggregation : bool) :
  expected_class_name name aggregation
  = class_name_by_words starts_ascii_uppercase name aggregation.
Proof.
  unfold expected_class_name, class_name_by_words.
  rewrite re_sub_strips, re_sub_normalizes, re_split_words.
  cbn [rev app].
  destruct (re_split_class _ _) as [|w ws] eqn:E.
  - now apply re_split_nonempty in E.
  - cbn [hd tl]. destruct aggregation; [reflexivity|]. now rewrite app_nil_r.
Qed.

(** C9, as stated, fails: a word is left as it is only when it starts
    with one of the ASCII letters [A] to [Z].  A word in capitals that
    starts with an accented capital is capitalized, which puts the rest
    of the word in lower case. *)
Lemma class_name_accented_capital :
  returned Expected.class_name
    (get_definition capitals_csv sample_t1_4 sample_t1_5
       (Division.id iles_capitals) false fresh)
  = Some (py "IlesDELAMADELEINE") /\
  class_name_by_words starts_uppercase (Division.name iles_capitals) false
  = py "ILESDELAMADELEINE" /\
  returned Expected.class_name
    (get_definition capitals_csv sample_t1_4 sample_t1_5
       (Division.id iles_capitals) false fresh)
  <> Some (class_name_by_words starts_uppercase (Division.name iles_capitals) false).
Proof. vm_compute. repeat split. discriminate. Qed.

(** C9, amended: whenever [get_definition] returns, the class name is the
    result of stripping apostrophes and periods from the division name,
    normalizing en-dash and em-dash to a dash, splitting on spaces and
    dashes, capitalizing (first character in title case, the others in
    lower case) each word unless it starts with an ASCII letter [A] to
    [Z], concatenating, transliterating and, with the aggregation flag,
    appending ["Municipalities"]. *)
Theorem class_name_rule country_ca t1_4 t1_5 division_id aggregation w w' e :
  get_definition country_ca t1_4 t1_5 division_id aggregation w = (Ok e, w') ->
  exists d,
    Division.get country_ca division_id = Ok d /\
    Expected.class_name e
    = class_name_by_words starts_ascii_uppercase (Division.name d) aggregation.
Proof.
  intros H. apply get_definition_inv in H as (d & Hget & Hclass & _).
  exists d. split; [assumption|].
  now rewrite Hclass, expected_class_name_by_words.
Qed.

Lemma class_name_rule_witness :
  exists d,
    Division.get sample_csv (Division.id plateau) = Ok d /\
    Expected.class_name plateau_municipalities
    = class_name_by_words starts_ascii_uppercase (Division.name d) true.
Proof.
  apply (class_name_rule sample_csv sample_t1_4 sample_t1_5 (Division.id plateau) true fresh
           (snd (get_definition sample_csv sample_t1_4 sample_t1_5
                   (Division.id plateau) true fresh))
           plateau_municipalities).
  vm_compute. reflexivity.
Defined.

(** ** C3: the module metadata extractor *)

Lemma first_with_division_id_none (objs : list pyobject) :
  Forall (fun obj => attributes obj !! py "division_id" = None) objs ->
  first_with_division_id objs = Ok None.
Proof.
  induction 1 as [|obj objs Hobj _ IH]; [reflexivity|].
  cbn [first_with_division_id]. unfold getattr. now rewrite Hobj.
Qed.

(** C3, as stated, fails: on a module in which no object has a
    [division_id], the loop ends and the function returns [None]; it
    raises neither [NotFoundError] nor anything else. *)
Lemma metadata_of_module_without_jurisdiction :
  module_name_to_metadata sample_modules_no_jurisdiction (py "ca_nb_moncton") = Ok None /\
  module_name_to_metadata sample_modules_no_jurisdiction (py "ca_nb_moncton")
  <> Raise NotFoundError.
Proof. split; [vm_compute; reflexivity|]. vm_compute. discriminate. Qed.

(** C3, amended: applied to a module that can be imported and none of
    whose objects has a [division_id] attribute, [module_name_to_metadata]
    returns [None]. *)
Theorem metadata_none_without_division_id
  (modules : gmap str (list pyobject)) (module_name : str) (objs : list pyobject) :
  modules !! module_name = Some objs ->
  Forall (fun obj => attributes obj !! py "division_id" = None) objs ->
  module_name_to_metadata modules module_name = Ok None.
Proof.
  intros Hmod Hobjs. unfold module_name_to_metadata. rewrite Hmod.
  now apply first_with_division_id_none.
Qed.

Lemma metadata_none_without_division_id_witness :
  module_name_to_metadata sample_modules_no_jurisdiction (py "ca_nb_moncton") = Ok None.
Proof.
  apply (metadata_none_without_division_id sample_modules_no_jurisdiction
           (py "ca_nb_moncton")
           [PyObject (Some (py "MonctonPersonScraper"))
              {[ py "csv_url" := VStr (py "http://www.moncton.ca/councillors.csv") ]}]).
  - vm_compute. reflexivity.
  - constructor; [vm_compute; reflexivity|constructor].
Defined.

(** The auditor then fails on [metadata["division_id"]]. *)
Lemma tidy_module_without_division_id
  modules urlsplit derive leader_styles member_styles module_name objs seen w :
  endswith module_name (py "_candidates") = false ->
  endswith module_name (py "_municipalities") = false ->
  modules !! module_name = Some objs ->
  Forall (fun obj => attributes obj !! py "division_id" = None) objs ->
  tidy_module modules urlsplit derive leader_styles member_styles module_name seen w
  = (Raise TypeError, w).
Proof.
  intros Hc Hm Hmod Hobjs. unfold tidy_module. rewrite Hc, Hm. cbn [orb].
  unfold module_name_to_metadata.
  now rewrite Hmod, (first_with_division_id_none _ Hobjs).
Qed.

(** ** C4: the abbreviation of a province or territory *)

Example abbreviation_of_moncton :
  fst (province_or_territory_abbreviation sample_csv (Division.id moncton) fresh)
  = Ok (py "nb").
Proof. vm_compute. reflexivity. Qed.

Example abbreviation_without_provinces :
  fst (province_or_territory_abbreviation [canada; moncton] (Division.id moncton) fresh)
  = Raise KeyError.
Proof. vm_compute. reflexivity. Qed.

Example abbreviation_of_unknown_prefix :
  fst (province_or_territory_abbreviation sample_csv
         (py "ocd-division/country:ca/csd:9907022") fresh)
  = Raise KeyError.
Proof. vm_compute. reflexivity. Qed.

Example abbreviation_without_colon :
  fst (province_or_territory_abbreviation sample_csv (py "1307022") fresh)
  = Raise IndexError.
Proof. vm_compute. reflexivity. Qed.

Lemma dict_empty_true {V : Type} (m : gmap str V) : dict_empty m = true <-> m = ∅.
Proof.
  unfold dict_empty. rewrite <- map_to_list_empty_iff.
  destruct (map_to_list m); split; congruence.
Qed.

(** The loop that fills the memo: it raises nothing but lookup errors,
    every entry it adds comes from a province or territory of the file,
    and it does nothing when the file has none. *)
Lemma for_each_memo_body (country_ca : list Division.t) (w w' : world) (r : result unit) :
  for_each country_ca memo_body w = (r, w') ->
  (forall e, r = Raise e -> is_LookupError e = true) /\
  (forall k v,
     province_or_territory_abbreviation_memo w' !! k = Some v ->
     province_or_territory_abbreviation_memo w !! k = Some v \/
     exists d, In d country_ca /\
               In (Division._type d) [py "province"; py "territory"] /\
               Division.attrs d !! py "sgc" = Some k /\
               type_id (Division.id d) = Ok v) /\
  (Forall (fun d => ~ In (Division._type d) [py "province"; py "territory"]) country_ca ->
   r = Ok tt /\ w' = w).
Proof.
  revert w. induction country_ca as [|d rest IH]; intros w H.
  - cbn in H. unfold ret in H. injection H as <- <-.
    split; [discriminate|]. split; [now left|easy].
  - cbn [for_each] in H. fold (memo_body d) in H. unfold memo_body at 1 in H.
    destruct (str_in (Division._type d) _) eqn:Htype.
    + apply str_in_In in Htype.
      assert (Hno : Forall (fun d => ~ In (Division._type d) [py "province"; py "territory"])
                      (d :: rest) -> r = Ok tt /\ w' = w).
      { intros HF. inversion HF; subst. contradiction. }
      destruct (type_id (Division.id d)) as [v|e] eqn:Hv.
      2:{ cbv in H. injection H as <- <-.
          split; [|split; [now left|assumption]].
          intros e' [= <-]. unfold type_id in Hv.
          destruct (rsplit1 _ _) as [|? [|? [|? ?]]]; now inversion Hv. }
      unfold getitem in H.
      destruct (Division.attrs d !! py "sgc") as [k|] eqn:Hk.
      2:{ cbv in H. injection H as <- <-.
          split; [|split; [now left|assumption]].
          now intros e' [= <-]. }
      rewrite bind_bind, bind_lift_Ok, bind_bind, bind_lift_Ok in H.
      unfold bind at 1, memo_set at 1 in H.
      apply IH in H as (H1 & H2 & H3).
      split; [assumption|]. split; [|assumption].
      intros k' v' Hkv. apply H2 in Hkv as [Hkv|(d' & Hd' & Hrest)].
      * cbn in Hkv. destruct (decide (k = k')) as [<-|Hne].
        -- rewrite lookup_insert_eq in Hkv. injection Hkv as <-.
           right. exists d. split; [now left|]. auto.
        -- rewrite lookup_insert_ne in Hkv by assumption. now left.
      * right. exists d'. split; [now right|assumption].
    + rewrite bind_ret in H. apply IH in H as (H1 & H2 & H3).
      split; [assumption|]. split.
      * intros k v Hkv. apply H2 in Hkv as [Hkv|(d' & Hd' & Hrest)]; [now left|].
        right. exists d'. split; [now right|assumption].
      * intros HF. inversion HF; subst. now apply H3.
Qed.

Lemma type_id_error (id : str) (e : exn) : type_id id = Raise e -> e = IndexError.
Proof.
  unfold type_id. destruct (rsplit1 _ _) as [|? [|? [|? ?]]]; now intros [= <-].
Qed.

(** C4, as stated, fails: what is returned is a string, the type ID of
    the identifier of the province, and not a [Division]; no division of
    the file has that string as its identifier. *)
Lemma abbreviation_is_a_type_id :
  fst (province_or_territory_abbreviation sample_csv (Division.id moncton) fresh)
  = Ok (py "nb") /\
  type_id (Division.id new_brunswick) = Ok (py "nb") /\
  Forall (fun d => Division.id d <> py "nb") sample_csv.
Proof.
  split; [vm_compute; reflexivity|]. split; [vm_compute; reflexivity|].
  repeat constructor; vm_compute; discriminate.
Qed.

(** C4, amended: [province_or_territory_abbreviation] returns a string,
    the entry of the memo under the first two characters of the type ID
    of its argument; when the memo was empty that string is the type ID
    of the identifier of a province or territory of the file whose [sgc]
    is those two characters.  It raises only lookup errors ([KeyError],
    [IndexError]), and it raises whenever the memo is empty and the file
    has no province or territory, and whenever the two characters are no
    key of the memo it leaves. *)
Theorem abbreviation_lookup (country_ca : list Division.t) (code : str)
  (w w' : world) (r : result str) :
  province_or_territory_abbreviation country_ca code w = (r, w') ->
  (forall e, r = Raise e -> is_LookupError e = true) /\
  (forall s, r = Ok s ->
     exists t,
       type_id code = Ok t /\
       province_or_territory_abbreviation_memo w' !! take 2 t = Some s /\
       (dict_empty (province_or_territory_abbreviation_memo w) = true ->
        exists d, In d country_ca /\
                  In (Division._type d) [py "province"; py "territory"] /\
                  Division.attrs d !! py "sgc" = Some (take 2 t) /\
                  type_id (Division.id d) = Ok s)) /\
  (dict_empty (province_or_territory_abbreviation_memo w) = true ->
   Forall (fun d => ~ In (Division._type d) [py "province"; py "territory"]) country_ca ->
   exists e, r = Raise e) /\
  (forall t, type_id code = Ok t ->
     province_or_territory_abbreviation_memo w' !! take 2 t = None ->
     exists e, r = Raise e).
Proof.
  unfold province_or_territory_abbreviation. rewrite bind_read.
  fold memo_body.
  set (loop := if dict_empty (province_or_territory_abbreviation_memo w)
               then for_each country_ca memo_body else ret tt).
  intros H. unfold bind at 1 in H.
  assert (Hloop : forall r1 w1, loop w = (r1, w1) ->
            (forall e, r1 = Raise e -> is_LookupError e = true) /\
            (forall k v,
               province_or_territory_abbreviation_memo w1 !! k = Some v ->
               province_or_territory_abbreviation_memo w !! k = Some v \/
               exists d, In d country_ca /\
                         In (Division._type d) [py "province"; py "territory"] /\
                         Division.attrs d !! py "sgc" = Some k /\
                         type_id (Division.id d) = Ok v) /\
            (Forall (fun d => ~ In (Division._type d) [py "province"; py "territory"])
               country_ca -> r1 = Ok tt /\ w1 = w)).
  { subst loop. intros r1 w1.
    destruct (dict_empty _).
    - apply for_each_memo_body.
    - intros [= <- <-]. split; [discriminate|]. split; [now left|easy]. }
  destruct (loop w) as [[[]|e1] w1] eqn:Eloop.
  2:{ injection H as <- <-.
      destruct (Hloop _ _ eq_refl) as (H1 & _ & _).
      split; [intros e [= <-]; now apply H1|].
      split; [discriminate|]. split; [eauto|eauto]. }
  destruct (Hloop _ _ eq_refl) as (_ & H2 & H3). clear Hloop.
  rewrite bind_read in H.
  destruct (type_id code) as [t|e] eqn:Ht.
  2:{ cbv in H. injection H as <- <-.
      split; [intros e' [= <-]; now rewrite (type_id_error _ _ Ht)|].
      split; [discriminate|]. split; [eauto|eauto]. }
  rewrite bind_lift_Ok in H. unfold lift, getitem in H. cbv beta in H.
  match type of H with
  | context [match ?x with _ => _ end] => destruct x as [s|] eqn:Hs
  end; injection H as <- <-.
  - split; [discriminate|]. split; [|split].
    + intros s' [= <-]. exists t. split; [reflexivity|]. split; [assumption|].
      intros Hempty. apply dict_empty_true in Hempty.
      destruct (H2 _ _ Hs) as [Hold|Hd]; [|assumption].
      rewrite Hempty, lookup_empty in Hold. discriminate.
    + intros Hempty HF. apply dict_empty_true in Hempty.
      destruct (H3 HF) as [_ ->]. rewrite Hempty, lookup_empty in Hs. discriminate.
    + intros t' [= <-] Hnone. rewrite Hnone in Hs. discriminate.
  - split; [now intros e [= <-]|]. split; [discriminate|]. split; eauto.
Qed.

Lemma abbreviation_lookup_witness :
  (forall e, Ok (py "nb") = Raise e -> is_LookupError e = true) /\
  (forall s, Ok (py "nb") = Ok s ->
     exists t,
       type_id (Division.id moncton) = Ok t /\
       province_or_territory_abbreviation_memo
         (snd (province_or_territory_abbreviation sample_csv (Division.id moncton) fresh))
         !! take 2 t = Some s /\
       (dict_empty (province_or_territory_abbreviation_memo fresh) = true ->
        exists d, In d sample_csv /\
                  In (Division._type d) [py "province"; py "territory"] /\
                  Division.attrs d !! py "sgc" = Some (take 2 t) /\
                  type_id (Division.id d) = Ok s)) /\
  (dict_empty (province_or_territory_abbreviation_memo fresh) = true ->
   Forall (fun d => ~ In (Division._type d) [py "province"; py "territory"]) sample_csv ->
   exists e, @Ok str (py "nb") = Raise e) /\
  (forall t, type_id (Division.id moncton) = Ok t ->
     province_or_territory_abbreviation_memo
       (snd (province_or_territory_abbreviation sample_csv (Division.id moncton) fresh))
       !! take 2 t = None ->
     exists e, @Ok str (py "nb") = Raise e).
Proof.
  apply (abbreviation_lookup sample_csv (Division.id moncton) fresh
           (snd (province_or_territory_abbreviation sample_csv (Division.id moncton) fresh))
           (Ok (py "nb"))).
  vm_compute. reflexivity.
Defined.

(** ** C10: the aggregation flag in the auditor *)

Lemma tidy_module_flag modules urlsplit derive leader_styles member_styles module_name seen w :
  tidy_module modules urlsplit derive leader_styles member_styles module_name seen w
  = tidy_module modules urlsplit (fun division_id _ => derive division_id false)
      leader_styles member_styles module_name seen w.
Proof.
  unfold tidy_module.
  destruct (endswith module_name (py "_candidates")); [reflexivity|].
  destruct (endswith module_name (py "_municipalities")); reflexivity.
Qed.

Lemma tidy_modules_flag modules urlsplit derive leader_styles member_styles names seen w :
  tidy_modules modules urlsplit derive leader_styles member_styles names seen w
  = tidy_modules modules urlsplit (fun division_id _ => derive division_id false)
      leader_styles member_styles names seen w.
Proof.
  revert seen w. induction names as [|module_name rest IH]; intros seen w; [reflexivity|].
  cbn [tidy_modules]. unfold bind. rewrite <- tidy_module_flag.
  destruct (tidy_module _ _ _ _ _ _ _ _) as [[seen'|e] w1]; [apply IH|reflexivity].
Qed.

(** C10: in a run of [tidy] every call of [get_definition] has its
    aggregation flag false: whatever function stands where
    [get_definition] is called, the run is the same as with that function
    called with [False] in place of [module_name.endswith("_municipalities")];
    so it is for [get_definition] itself. *)
Theorem tidy_aggregation_false
  country_ca t1_4 t1_5 modules urlsplit styles_of_address listdir_cwd w :
  (forall derive,
     tidy_with modules urlsplit styles_of_address listdir_cwd derive w
     = tidy_with modules urlsplit styles_of_address listdir_cwd
         (fun division_id _ => derive division_id false) w) /\
  tidy country_ca t1_4 t1_5 modules urlsplit styles_of_address listdir_cwd w
  = tidy_with modules urlsplit styles_of_address listdir_cwd
      (fun division_id _ => get_definition country_ca t1_4 t1_5 division_id false) w.
Proof.
  assert (H : forall derive,
     tidy_with modules urlsplit styles_of_address listdir_cwd derive w
     = tidy_with modules urlsplit styles_of_address listdir_cwd
         (fun division_id _ => derive division_id false) w).
  { intros derive. unfold tidy_with, bind.
    destruct (lift _ w) as [[styles|e] w1]; [|reflexivity].
    destruct (module_names _ w1) as [[names|e] w2]; [|reflexivity].
    now rewrite <- tidy_modules_flag. }
  split; [exact H|]. unfold tidy. apply H.
Qed.

(** A name that is not skipped does not end with ["_municipalities"]. *)
Lemma audited_not_municipalities (module_name : str) :
  audited module_name = true -> endswith module_name (py "_municipalities") = false.
Proof.
  unfold audited. intros H. apply negb_true_iff, orb_false_iff in H. apply H.
Qed.

(** ** C5: the reports of duplicate identifiers *)

(** *** Computations that report no duplicate *)

Lemma quiet_ret {A : Type} (Q : A -> Prop) (a : A) : Q a -> quiet Q (ret a).
Proof.
  intros HQ w r w' [= <- <-]. split.
  - exists []. now rewrite app_nil_r.
  - now intros a' [= <-].
Qed.

Lemma quiet_raise {A : Type} (Q : A -> Prop) (e : exn) : quiet Q (raise e).
Proof.
  intros w r w' [= <- <-]. split; [|discriminate].
  exists []. now rewrite app_nil_r.
Qed.

Lemma quiet_lift {A : Type} (Q : A -> Prop) (r : result A) :
  (forall a, r = Ok a -> Q a) -> quiet Q (lift r).
Proof.
  intros HQ w r' w' [= <- <-]. split; [|assumption].
  exists []. now rewrite app_nil_r.
Qed.

Lemma quiet_read {A : Type} (Q : A -> Prop) (f : world -> A) :
  (forall w, Q (f w)) -> quiet Q (read f).
Proof.
  intros HQ w r w' [= <- <-]. split.
  - exists []. now rewrite app_nil_r.
  - intros a [= <-]. apply HQ.
Qed.

Lemma quiet_print (Q : unit -> Prop) (f : Finding) :
  other f = true -> Q tt -> quiet Q (print f).
Proof.
  intros Hf HQ w r w' [= <- <-]. split.
  - exists [f]. split; [reflexivity|]. simpl. now rewrite Hf.
  - now intros [] _.
Qed.

Lemma quiet_memo_set (Q : unit -> Prop) (k v : str) : Q tt -> quiet Q (memo_set k v).
Proof.
  intros HQ w r w' [= <- <-]. split.
  - exists []. simpl. now rewrite app_nil_r.
  - now intros [] _.
Qed.

Lemma quiet_type_name_set (Q : unit -> Prop) (k v : str) :
  Q tt -> quiet Q (type_name_set k v).
Proof.
  intros HQ w r w' [= <- <-]. split.
  - exists []. simpl. now rewrite app_nil_r.
  - now intros [] _.
Qed.

Lemma quiet_write_file (Q : unit -> Prop) (directory basename content : str) :
  Q tt -> quiet Q (write_file directory basename content).
Proof.
  intros HQ w r w'. unfold write_file.
  destruct (files w !! directory); intros [= <- <-]; (split; [|now intros [] _]);
    exists []; simpl; now rewrite app_nil_r.
Qed.

Lemma quiet_bind {A B : Type} (Q : B -> Prop) (c : M A) (k : A -> M B) :
  quiet (fun _ => True) c -> (forall a, quiet Q (k a)) -> quiet Q (bind c k).
Proof.
  intros Hc Hk w r w'. unfold bind.
  destruct (c w) as [[a|e] w1] eqn:Ec.
  - intros Ek. destruct (Hc _ _ _ Ec) as [(out1 & E1 & F1) _].
    destruct (Hk a _ _ _ Ek) as [(out2 & E2 & F2) HQ].
    split; [|assumption].
    exists (out1 ++ out2). rewrite E2, E1, <- app_assoc. split; [reflexivity|].
    now rewrite forallb_app, F1, F2.
  - intros [= <- <-]. destruct (Hc _ _ _ Ec) as [Hout _].
    split; [assumption|discriminate].
Qed.

Lemma quiet_for_each {A : Type} (Q : unit -> Prop) (xs : list A) (body : A -> M unit) :
  Q tt -> (forall x, quiet (fun _ => True) (body x)) -> quiet Q (for_each xs body).
Proof.
  intros HQ Hbody. induction xs as [|x xs IH]; cbn [for_each].
  - now apply quiet_ret.
  - apply quiet_bind; [apply Hbody|intros _; apply IH].
Qed.

(** Goes through a computation, one construct at a time. *)
Ltac quiet_steps :=
  repeat first
    [ assumption
    | exact I
    | apply quiet_ret
    | apply quiet_raise
    | apply quiet_lift; intros ? ?
    | apply quiet_read; intros ?
    | apply quiet_print; [reflexivity|]
    | apply quiet_memo_set
    | apply quiet_type_name_set
    | apply quiet_write_file
    | apply quiet_for_each; [|intros ?]
    | apply quiet_bind; [|intros ?]
    | match goal with
      | |- quiet _ (if ?b then _ else _) => destruct b
      | |- quiet _ (match ?x with _ => _ end) => destruct x
      end ].

Lemma quiet_province_or_territory_abbreviation (Q : str -> Prop) country_ca code :
  (forall s, Q s) -> quiet Q (province_or_territory_abbreviation country_ca code).
Proof.
  intros HQ. unfold province_or_territory_abbreviation. quiet_steps. apply HQ.
Qed.

Lemma quiet_load_type_names country_ca t1_4 t1_5 :
  quiet (fun _ => True) (load_type_names country_ca t1_4 t1_5).
Proof. unfold load_type_names. quiet_steps. Qed.

Lemma quiet_get_definition country_ca t1_4 t1_5 division_id aggregation :
  quiet (fun _ => True) (get_definition country_ca t1_4 t1_5 division_id aggregation).
Proof.
  unfold get_definition.
  repeat first
    [ apply quiet_load_type_names
    | apply quiet_province_or_territory_abbreviation; intros ?
    | progress quiet_steps ].
Qed.

Lemma quiet_listdir directory : quiet (fun _ => True) (listdir directory).
Proof. unfold listdir. quiet_steps. Qed.

Lemma quiet_read_file directory basename :
  quiet (fun _ => True) (read_file directory basename).
Proof. unfold read_file. quiet_steps. Qed.

Lemma quiet_rename_class module_name class_name expected_class_name :
  quiet (fun _ => True) (rename_class module_name class_name expected_class_name).
Proof.
  unfold rename_class.
  repeat first [ apply quiet_listdir | apply quiet_read_file | progress quiet_steps ].
Qed.

Lemma quiet_rewrite_init module_name division_name url expected :
  quiet (fun _ => True) (rewrite_init module_name division_name url expected).
Proof.
  unfold rewrite_init.
  repeat first [ apply quiet_read_file | progress quiet_steps ].
Qed.

(** *** One module *)

(** One of the two checks [if x in xs: print(...) else: xs.add(x)]. *)
Lemma bind_check {A : Type} (b : bool) (f : Finding) (s s' : gset str)
  (k : gset str -> M A) (w : world) :
  bind (if b then bind (print f) (fun _ => ret s) else ret s') k w
  = k (if b then s else s') (if b then printed f w else w).
Proof. now destruct b. Qed.

Lemma filter_other (k : id_kind) (out : list Finding) :
  forallb other out = true -> List.filter (is_duplicate_kind k) out = [].
Proof.
  induction out as [|f out IH]; [reflexivity|].
  cbn [forallb List.filter]. intros H. apply andb_prop in H as [Hf Hout].
  rewrite (IH Hout). now destruct k, f.
Qed.

Lemma tidy_module_skipped
  modules urlsplit derive leader_styles member_styles module_name seen w :
  audited module_name = false ->
  tidy_module modules urlsplit derive leader_styles member_styles module_name seen w
  = (Ok seen, w).
Proof.
  unfold audited, tidy_module. intros H. apply negb_false_iff in H. now rewrite H.
Qed.

Lemma tidy_module_no_metadata
  modules urlsplit derive leader_styles member_styles module_name seen w :
  audited module_name = true ->
  (forall metadata, module_name_to_metadata modules module_name <> Ok (Some metadata)) ->
  exists e,
    tidy_module modules urlsplit derive leader_styles member_styles module_name seen w
    = (Raise e, w).
Proof.
  unfold audited, tidy_module. intros H Hno. apply negb_true_iff in H. rewrite H.
  destruct (module_name_to_metadata modules module_name) as [[metadata|]|e].
  - now destruct (Hno metadata).
  - now exists TypeError.
  - now exists e.
Qed.

(** What an audited module with metadata prints about duplicates, and
    the sets it leaves. *)
Lemma tidy_module_audited
  modules urlsplit derive leader_styles member_styles module_name metadata seen w r w' :
  (forall division_id aggregation, quiet (fun _ => True) (derive division_id aggregation)) ->
  audited module_name = true ->
  module_name_to_metadata modules module_name = Ok (Some metadata) ->
  tidy_module modules urlsplit derive leader_styles member_styles module_name seen w
  = (r, w') ->
  exists out,
    stdout w' = stdout w ++ out /\
    (forall k,
       List.filter (is_duplicate_kind k) out
       = if bool_decide (id_of k metadata ∈ seen_of k seen)
         then [duplicate k module_name (id_of k metadata)] else []) /\
    (forall s, r = Ok s ->
       forall k,
         seen_of k s
         = if bool_decide (id_of k metadata ∈ seen_of k seen) then seen_of k seen
           else {[id_of k metadata]} ∪ seen_of k seen).
Proof.
  intros Hderive Haud Hmeta. unfold audited in Haud. apply negb_true_iff in Haud.
  unfold tidy_module. rewrite Haud, Hmeta, bind_lift_Ok, bind_ret.
  rewrite bind_check. cbv beta. rewrite bind_check. cbv beta.
  set (b1 := bool_decide (Metadata.division_id metadata ∈ seen.1)).
  set (b2 := bool_decide (Metadata.jurisdiction_id metadata ∈ seen.2)).
  set (f1 := Duplicate_division_id module_name (Metadata.division_id metadata)).
  set (f2 := Duplicate_jurisdiction_id module_name (Metadata.jurisdiction_id metadata)).
  set (s1 := if b1 then seen.1 else {[Metadata.division_id metadata]} ∪ seen.1).
  set (s2 := if b2 then seen.2 else {[Metadata.jurisdiction_id metadata]} ∪ seen.2).
  set (w1 := if b1 then printed f1 w else w).
  set (w2 := if b2 then printed f2 w1 else w1).
  intros H.
  match type of H with
  | ?c w2 = _ => assert (Hq : quiet (fun s => s = (s1, s2)) c)
  end.
  { repeat first
      [ apply quiet_rename_class
      | apply quiet_rewrite_init
      | apply Hderive
      | reflexivity
      | progress quiet_steps ]. }
  destruct (Hq _ _ _ H) as [(out & Eout & Fout) Hres].
  exists ((if b1 then [f1] else []) ++ (if b2 then [f2] else []) ++ out).
  split; [|split].
  - rewrite Eout. subst w2 w1. destruct b1, b2; cbn [stdout printed];
      now rewrite <- ?app_assoc.
  - intros k. rewrite !List.filter_app, (filter_other k out Fout), app_nil_r.
    destruct k; cbn [id_of seen_of duplicate]; fold b1 b2; destruct b1, b2; reflexivity.
  - intros s Hs k. rewrite (Hres s Hs). destruct k; reflexivity.
Qed.

(** *** The loop *)

(** A run over [names] that completes reports the duplicates of
    [duplicates]. *)
Lemma tidy_modules_duplicates
  modules urlsplit derive leader_styles member_styles names seen w s w' :
  (forall division_id aggregation, quiet (fun _ => True) (derive division_id aggregation)) ->
  tidy_modules modules urlsplit derive leader_styles member_styles names seen w
  = (Ok s, w') ->
  exists out,
    stdout w' = stdout w ++ out /\
    forall k,
      List.filter (is_duplicate_kind k) out = duplicates modules k names (seen_of k seen).
Proof.
  intros Hderive. revert seen w.
  induction names as [|m rest IH]; intros seen w H.
  - injection H as <- <-. exists []. now rewrite app_nil_r.
  - cbn [tidy_modules] in H. unfold bind in H.
    destruct (tidy_module _ _ _ _ _ m seen w) as [[s1|e] w1] eqn:E; [|discriminate].
    destruct (audited m) eqn:Haud.
    + destruct (module_name_to_metadata modules m) as [[metadata|]|e] eqn:Hmeta.
      * destruct (tidy_module_audited _ _ _ _ _ _ _ _ _ _ _ Hderive Haud Hmeta E)
          as (out1 & E1 & F1 & S1).
        destruct (IH _ _ H) as (out2 & E2 & F2).
        exists (out1 ++ out2). split; [now rewrite E2, E1, <- app_assoc|].
        intros k. rewrite List.filter_app, F1, F2, (S1 s1 eq_refl k).
        cbn [duplicates]. rewrite Haud, Hmeta. cbv zeta.
        now destruct (bool_decide _).
      * destruct (tidy_module_no_metadata modules urlsplit derive leader_styles
                    member_styles m seen w Haud) as [e He]; [|congruence].
        intros metadata. congruence.
      * destruct (tidy_module_no_metadata modules urlsplit derive leader_styles
                    member_styles m seen w Haud) as [e' He]; [|congruence].
        intros metadata. congruence.
    + rewrite tidy_module_skipped in E by assumption. injection E as <- <-.
      destruct (IH _ _ H) as (out & E2 & F2). exists out. split; [assumption|].
      intros k. cbn [duplicates]. rewrite Haud. apply F2.
Qed.

(** *** Two modules with the same identifier *)

Lemma is_duplicate_duplicate (k : id_kind) (x m y : str) :
  is_duplicate k x (duplicate k m y) = str_eqb y x.
Proof. now destruct k. Qed.

Lemma filter_is_duplicate (k : id_kind) (x : str) (out : list Finding) :
  List.filter (is_duplicate k x) (List.filter (is_duplicate_kind k) out)
  = List.filter (is_duplicate k x) out.
Proof.
  induction out as [|f out IH]; [reflexivity|].
  cbn [List.filter].
  destruct (is_duplicate_kind k f) eqn:Hk; cbn [List.filter]; rewrite IH; [reflexivity|].
  now destruct k, f.
Qed.

(** Modules that declare other identifiers add no report about [x] and
    leave [x] in or out of the set as it was. *)
Lemma duplicates_of_others (modules : gmap str (list pyobject)) (k : id_kind) (x : str) (l rest : list str)
  (seen : gset str) :
  (forall m metadata,
     In m l -> audited m = true ->
     module_name_to_metadata modules m = Ok (Some metadata) -> id_of k metadata <> x) ->
  exists seen',
    (x ∈ seen' <-> x ∈ seen) /\
    List.filter (is_duplicate k x) (duplicates modules k (l ++ rest) seen)
    = List.filter (is_duplicate k x) (duplicates modules k rest seen').
Proof.
  revert seen. induction l as [|m l IH]; intros seen Hl.
  - now exists seen.
  - assert (Hl' : forall m' metadata,
              In m' l -> audited m' = true ->
              module_name_to_metadata modules m' = Ok (Some metadata) ->
              id_of k metadata <> x).
    { intros m' metadata Hin. apply Hl. now right. }
    cbn [app duplicates].
    destruct (audited m) eqn:Haud; [|now apply IH].
    destruct (module_name_to_metadata modules m) as [[metadata|]|e] eqn:Hmeta;
      [|now apply IH|now apply IH].
    assert (Hne : id_of k metadata <> x) by (apply (Hl m); auto; now left).
    cbv zeta. case_bool_decide as Hin.
    + cbn [List.filter]. rewrite is_duplicate_duplicate.
      apply str_eqb_neq in Hne. rewrite Hne. now apply IH.
    + destruct (IH ({[id_of k metadata]} ∪ seen) Hl') as (seen' & Hiff & E).
      exists seen'. split; [|assumption].
      rewrite Hiff, elem_of_union, elem_of_singleton. intuition congruence.
Qed.

Lemma duplicates_second (modules : gmap str (list pyobject)) (k : id_kind) (x : str) (l1 l2 l3 : list str)
  (m1 m2 : str) (metadata1 metadata2 : Metadata.t) (seen : gset str) :
  x ∉ seen ->
  audited m1 = true -> audited m2 = true ->
  module_name_to_metadata modules m1 = Ok (Some metadata1) -> id_of k metadata1 = x ->
  module_name_to_metadata modules m2 = Ok (Some metadata2) -> id_of k metadata2 = x ->
  (forall m metadata,
     In m (l1 ++ l2 ++ l3) -> audited m = true ->
     module_name_to_metadata modules m = Ok (Some metadata) -> id_of k metadata <> x) ->
  List.filter (is_duplicate k x) (duplicates modules k (l1 ++ m1 :: l2 ++ m2 :: l3) seen)
  = [duplicate k m2 x].
Proof.
  intros Hseen Ha1 Ha2 Hm1 Hx1 Hm2 Hx2 Hothers.
  destruct (duplicates_of_others modules k x l1 (m1 :: l2 ++ m2 :: l3) seen)
    as (seen1 & Hiff1 & ->).
  { intros m metadata Hin. apply Hothers. apply in_or_app. now left. }
  cbn [duplicates]. rewrite Ha1, Hm1. cbv zeta. rewrite Hx1.
  rewrite bool_decide_eq_false_2 by now rewrite Hiff1.
  destruct (duplicates_of_others modules k x l2 (m2 :: l3) ({[x]} ∪ seen1))
    as (seen2 & Hiff2 & ->).
  { intros m metadata Hin. apply Hothers. apply in_or_app. right.
    apply in_or_app. now left. }
  cbn [duplicates]. rewrite Ha2, Hm2. cbv zeta. rewrite Hx2.
  rewrite bool_decide_eq_true_2
    by (rewrite Hiff2; apply elem_of_union_l, elem_of_singleton; reflexivity).
  cbn [List.filter]. rewrite is_duplicate_duplicate.
  rewrite (proj2 (str_eqb_eq x x) eq_refl). f_equal.
  destruct (duplicates_of_others modules k x l3 [] seen2) as (seen3 & _ & E).
  { intros m metadata Hin. apply Hothers. apply in_or_app. right.
    apply in_or_app. now right. }
  rewrite app_nil_r in E. now rewrite E.
Qed.

(** C5, as stated, fails: a module whose name ends with ["_candidates"]
    or ["_municipalities"] is skipped before its identifiers are looked
    at.  Ontario and its roll-up of municipalities declare the same
    [division_id] (and the same [jurisdiction_id]), and the run reports
    nothing. *)
Lemma duplicate_in_skipped_module_unreported :
  (exists a b,
     module_name_to_metadata ontario_modules (py "ca_on") = Ok (Some a) /\
     module_name_to_metadata ontario_modules (py "ca_on_municipalities") = Ok (Some b) /\
     Metadata.division_id a = Metadata.division_id b /\
     Metadata.jurisdiction_id a = Metadata.jurisdiction_id b) /\
  tidy sample_csv sample_t1_4 sample_t1_5 ontario_modules sample_urlsplit sample_styles
       ontario_listdir ontario_world
  = (Ok tt,
     World ∅ (ocdid_to_type_name_map
                (snd (load_type_names sample_csv sample_t1_4 sample_t1_5 fresh)))
           (files ontario_world) []).
Proof.
  split.
  - do 2 eexists. split; [vm_compute; reflexivity|].
    split; [vm_compute; reflexivity|]. split; reflexivity.
  - vm_compute. reflexivity.
Qed.

(** C5, amended: in a run of [tidy] that completes, if among the modules
    that are audited (those whose names end neither with ["_candidates"]
    nor with ["_municipalities"]) exactly two, [m1] before [m2], declare
    the [division_id] [x], then exactly one finding reports [x] as a
    duplicate [division_id], and it names [m2]; the same holds of the
    [jurisdiction_id]. *)
Theorem duplicate_reported_once
  country_ca t1_4 t1_5 modules urlsplit styles_of_address listdir_cwd
  (k : id_kind) (x : str) (l1 l2 l3 : list str) (m1 m2 : str)
  (metadata1 metadata2 : Metadata.t) (w w' : world) :
  tidy country_ca t1_4 t1_5 modules urlsplit styles_of_address listdir_cwd w = (Ok tt, w') ->
  filter (fun m => isfile (files w) m (py "__init__.py") = true) listdir_cwd
  = l1 ++ m1 :: l2 ++ m2 :: l3 ->
  audited m1 = true -> audited m2 = true ->
  module_name_to_metadata modules m1 = Ok (Some metadata1) -> id_of k metadata1 = x ->
  module_name_to_metadata modules m2 = Ok (Some metadata2) -> id_of k metadata2 = x ->
  (forall m metadata,
     In m (l1 ++ l2 ++ l3) -> audited m = true ->
     module_name_to_metadata modules m = Ok (Some metadata) -> id_of k metadata <> x) ->
  exists out,
    stdout w' = stdout w ++ out /\
    List.filter (is_duplicate k x) out = [duplicate k m2 x].
Proof.
  intros Hrun Hnames Ha1 Ha2 Hm1 Hx1 Hm2 Hx2 Hothers.
  unfold tidy, tidy_with in Hrun.
  apply bind_Ok_inv in Hrun as (styles & w0 & Hstyles & Hrun).
  apply lift_inv in Hstyles as [_ ->].
  apply bind_Ok_inv in Hrun as (names & w0 & Enames & Hrun).
  unfold module_names in Enames. rewrite bind_read in Enames.
  apply ret_inv in Enames as [-> ->]. rewrite Hnames in Hrun.
  apply bind_Ok_inv in Hrun as (s & w1 & Hloop & Hrun).
  apply ret_inv in Hrun as [_ ->].
  apply tidy_modules_duplicates in Hloop as (out & Eout & Fout);
    [|intros; apply quiet_get_definition].
  exists out. split; [assumption|].
  rewrite <- filter_is_duplicate, (Fout k).
  apply (duplicates_second modules k x l1 l2 l3 m1 m2 metadata1 metadata2); try assumption.
  destruct k; cbn; apply not_elem_of_empty.
Qed.

Lemma duplicate_reported_once_witness :
  exists out,
    stdout (snd (tidy sample_csv sample_t1_4 sample_t1_5 moncton_modules sample_urlsplit
                   sample_styles moncton_listdir moncton_world))
    = stdout moncton_world ++ out /\
    List.filter (is_duplicate Division_id (Division.id moncton)) out
    = [duplicate Division_id (py "ca_nb_greater_moncton") (Division.id moncton)].
Proof.
  apply (duplicate_reported_once sample_csv sample_t1_4 sample_t1_5 moncton_modules
           sample_urlsplit sample_styles moncton_listdir Division_id (Division.id moncton)
           [] [py "ca_on"] [] (py "ca_nb_moncton") (py "ca_nb_greater_moncton")
           (Metadata.mk (py "Moncton") (Division.id moncton) (VStr (py "Moncton"))
              (VStr (py "Moncton City Council")) (VStr (py "http://www.moncton.ca"))
              (VStr (py "legislature"))
              (py "ocd-jurisdiction/country:ca/csd:1307022/legislature"))
           (Metadata.mk (py "GreaterMoncton") (Division.id moncton) (VStr (py "Moncton"))
              (VStr (py "Moncton City Council")) (VStr (py "http://www.moncton.ca"))
              (VStr (py "legislature"))
              (py "ocd-jurisdiction/country:ca/csd:1307022/legislature"))
           moncton_world).
  - vm_compute. reflexivity.
  - vm_compute. reflexivity.
  - vm_compute. reflexivity.
  - vm_compute. reflexivity.
  - vm_compute. reflexivity.
  - reflexivity.
  - vm_compute. reflexivity.
  - reflexivity.
  - intros m metadata [<-|[]] _ H. vm_compute in H. injection H as <-.
    vm_compute. discriminate.
Defined.

(** * Further properties of the code *)

(** ** [type_id] *)



(** ** [slug] on names *)





(** ** The memo of [province_or_territory_abbreviation] *)





(** ** The cache of type names *)





(** ** What [get_definition] leaves alone *)













(** ** The other branches of [get_definition] *)





Example york_definition :
  returned (fun e => (Expected.module_name e, Expected.name e))
    (get_definition cd_csv cd_t1_4 sample_t1_5 (Division.id york) false fresh)
  = Some (py "ca_on_york", py "York Regional Council").
Proof. vm_compute. reflexivity. Qed.

Example halifax_county_definition :
  returned (fun e => (Expected.module_name e, Expected.name e))
    (get_definition cd_csv cd_t1_4 sample_t1_5 (Division.id halifax_county) false fresh)
  = Some (py "ca_ns_halifax", py "Halifax County Council").
Proof. vm_compute. reflexivity. Qed.





(** ** Every report of a duplicate has an earlier module *)





(** ** The rewriting of [__init__.py] *)





(** ** A jurisdiction without a name or a classification *)


(** ** The tables of type names *)





Example unclassified_module_raises_TypeError :
  fst (tidy_module unclassified_modules sample_urlsplit
         (get_definition sample_csv sample_t1_4 sample_t1_5) ∅ ∅
         (py "ca_nb_moncton") (∅, ∅) moncton_world)
  = Raise TypeError.
Proof. vm_compute. reflexivity. Qed.
